(** * Pricing and quoting engine of pharma-backend

    Shallow embedding of [app/services/pricing.py]
    ([PricingEngineService.calculate_price], [check_nppa_compliance]) and
    [app/services/quote.py] ([QuoteService.create_quote], [get_quote],
    [update_quote_status], [delete_quote], [list_quotes],
    [_generate_quote_number]), and of the exception-to-HTTP mapping of the
    routes calling them ([app/routes/pricing_routes.py],
    [app/routes/quote_routes.py]).

    Prices, margins and percentages are rationals ([Q]); the database is a
    set of tables kept as lists in storage order, since the queries use
    [LIMIT 1] / [fetchone()] without [ORDER BY] and so pick the first
    matching row.  A SQLAlchemy session is a pair of the committed tables
    and the tables the open transaction works on. *)

From Stdlib Require Import QArith ZArith List String Ascii Bool Lia Lqa Permutation.
From Stdlib Require DecimalNat.
Import ListNotations.
Open Scope Q_scope.

(** ** Python helpers *)

(** [x < y] on numbers. *)
Definition Qltb (x y : Q) : bool := negb (Qle_bool y x).

(** Python truthiness of a number: [0] is falsy. *)
Definition truthy (x : Q) : bool := negb (Qeq_bool x 0).

(** Truthiness of a nullable numeric column ([None] is falsy). *)
Definition truthy_opt (x : option Q) : bool :=
  match x with Some v => truthy v | None => false end.

(** Truthiness of a nullable integer id or bound. *)
Definition truthy_nat (x : option nat) : bool :=
  match x with Some n => negb (Nat.eqb n 0) | None => false end.

(** [x or 0] for a nullable numeric column. *)
Definition or0 (x : option Q) : Q :=
  match x with Some v => if truthy v then v else 0 | None => 0 end.

(** Python's [min(a, b)]: [b] only when [b < a]. *)
Definition py_min (a b : Q) : Q := if Qltb b a then b else a.

(** ** Data model (the tables the services query) *)

Record brand := mkBrand {
  b_id : nat;
  b_user : nat;
  cost_price : Q;
  mrp : Q;
  default_margin : option Q;
  is_nppa_controlled : bool;
  nppa_margin_limit : option Q;
  is_active : bool
}.

Record customer_type := mkCustomerType {
  ct_id : nat;
  ct_user : nat;
  ct_default_margin : option Q
}.

(** A row of [pricing_rules]; dates are day numbers. *)
Record pricing_rule := mkRule {
  r_user : nat;
  r_brand : nat;
  r_customer_type : option nat;
  r_margin_percentage : option Q;
  r_sell_price : option Q;
  r_volume_discount : option Q;
  r_min_quantity : option nat;
  r_max_quantity : option nat;
  r_is_active : bool;
  r_valid_from : option nat;
  r_valid_until : option nat
}.

Inductive quote_status := Draft | Sent | Viewed | Accepted | Rejected | Expired.

Definition quote_status_eqb (a b : quote_status) : bool :=
  match a, b with
  | Draft, Draft | Sent, Sent | Viewed, Viewed | Accepted, Accepted
  | Rejected, Rejected | Expired, Expired => true
  | _, _ => false
  end.

Record quote_row := mkQuote {
  q_id : nat;
  q_user : nat;
  q_number : string;
  q_customer_name : string;
  q_customer_type : option nat;
  q_status : quote_status;
  q_total_amount : Q;
  q_total_margin : Q
}.

Record line_row := mkLine {
  l_id : nat;
  l_quote : nat;
  l_brand : nat;
  l_quantity : nat;
  l_unit_price : Q;
  l_margin_percentage : Q;
  l_discount : Q;
  l_line_total : Q;
  l_margin_earned : Q
}.

Record tables := mkTables {
  brands : list brand;
  customer_types : list customer_type;
  pricing_rules : list pricing_rule;
  quotes : list quote_row;
  quote_line_items : list line_row;
  next_quote_id : nat;      (* SERIAL sequence of quotes.id *)
  next_line_id : nat        (* SERIAL sequence of quote_line_items.id *)
}.

(** Messages of the [ValueError]s the services raise; the routes turn
    them into user-facing errors. *)
Inductive value_msg :=
  | BrandNotFound                 (* "Brand not found" *)
  | BrandIdNotFound (id : nat)    (* f"Brand {id} not found" *)
  | QuoteNotFound                 (* "Quote not found" *)
  | OnlyDraftDeletable.           (* "Can only delete draft quotes" *)

Inductive exn :=
  | ValueError (m : value_msg)
  | Exception (m : string).

Inductive result (A : Type) :=
  | Ok (a : A)
  | Err (e : exn).
Arguments Ok {A} a.
Arguments Err {A} e.

(** ** Queries on brands *)

(** [SELECT ... FROM brands WHERE id = :brand_id AND user_id = :user_id
    AND is_active = true], first row. *)
Definition find_active_brand (t : tables) (user bid : nat) : option brand :=
  find (fun b => Nat.eqb (b_id b) bid && Nat.eqb (b_user b) user && is_active b)
       (brands t).

(** [SELECT default_margin FROM brands WHERE id = :brand_id AND
    user_id = :user_id], first row. *)
Definition find_brand_margin (t : tables) (user bid : nat) : option (option Q) :=
  option_map default_margin
    (find (fun b => Nat.eqb (b_id b) bid && Nat.eqb (b_user b) user) (brands t)).

(** [SELECT default_margin FROM customer_types WHERE id = :customer_type_id
    AND user_id = :user_id], first row. *)
Definition find_customer_type_margin (t : tables) (user ctid : nat)
  : option (option Q) :=
  option_map ct_default_margin
    (find (fun c => Nat.eqb (ct_id c) ctid && Nat.eqb (ct_user c) user)
          (customer_types t)).

(** The date window [(valid_from IS NULL OR valid_from <= CURRENT_DATE)
    AND (valid_until IS NULL OR valid_until >= CURRENT_DATE)]. *)
Definition in_window (today : nat) (r : pricing_rule) : bool :=
  match r_valid_from r with Some f => Nat.leb f today | None => true end &&
  match r_valid_until r with Some u => Nat.leb today u | None => true end.

(** The pricing-rule query of [calculate_price] ([LIMIT 1]); a rule whose
    [customer_type_id] is NULL never satisfies [customer_type_id = :id]. *)
Definition find_rule (t : tables) (today user bid ctid : nat)
  : option pricing_rule :=
  find (fun r =>
          Nat.eqb (r_user r) user && Nat.eqb (r_brand r) bid &&
          match r_customer_type r with
          | Some c => Nat.eqb c ctid
          | None => false
          end && r_is_active r && in_window today r)
       (pricing_rules t).

(** ** [PricingEngineService.calculate_price] *)

Inductive nppa_msg :=
  | MsgCompliant                       (* "Compliant" *)
  | MsgPriceCompliant                  (* "Price is NPPA compliant" *)
  | MsgNoLimitSet                      (* "NPPA controlled but no margin limit set" *)
  | MsgExceeds (margin limit : Q).     (* f"Margin {margin:.2f}% exceeds NPPA limit of {limit}%" *)

Record price_result := mkPriceResult {
  pr_brand_id : nat;
  pr_cost_price : Q;
  pr_mrp : Q;
  pr_unit_price : Q;
  pr_quantity : nat;
  pr_margin_percentage : Q;
  pr_margin_per_unit : Q;
  pr_total_margin : Q;
  pr_total_amount : Q;
  pr_volume_discount : Q;
  pr_nppa_controlled : bool;
  pr_nppa_compliant : bool;
  pr_nppa_message : nppa_msg
}.

(** Base sell price and volume discount when a rule matched. *)
Definition rule_pricing (cost : Q) (quantity : nat) (r : pricing_rule) : Q * Q :=
  let sell_price :=
    if truthy_opt (r_sell_price r) then
      match r_sell_price r with Some p => p | None => 0 end
    else cost * (1 + or0 (r_margin_percentage r) / 100) in
  let volume_discount :=
    if truthy_nat (r_min_quantity r) && truthy_nat (r_max_quantity r) then
      match r_min_quantity r, r_max_quantity r with
      | Some lo, Some hi =>
          if Nat.leb lo quantity && Nat.leb quantity hi
          then or0 (r_volume_discount r) else 0
      | _, _ => 0
      end
    else if truthy_nat (r_min_quantity r) then
      match r_min_quantity r with
      | Some lo => if Nat.leb lo quantity then or0 (r_volume_discount r) else 0
      | None => 0
      end
    else 0 in
  (sell_price, volume_discount).

(** Margin percent when no rule matched: customer type default, then the
    brand's default margin query. *)
Definition fallback_margin (t : tables) (user bid : nat) (ctid : option nat) : Q :=
  let m0 :=
    if truthy_nat ctid then
      match ctid with
      | Some c =>
          match find_customer_type_margin t user c with
          | Some m => or0 m
          | None => 0
          end
      | None => 0
      end
    else 0 in
  match find_brand_margin t user bid with
  | Some bm => if truthy_opt bm then match bm with Some v => v | None => m0 end
               else m0
  | None => m0
  end.

(** [final_margin_percentage] of [calculate_price]. *)
Definition resolver_margin (sell_price cost : Q) : Q :=
  if Qltb 0 cost then (sell_price - cost) / cost * 100 else 0.

(** Steps 2-3: base sell price and volume discount, from the matching rule
    or from the default margins. *)
Definition base_pricing (t : tables) (today user bid : nat) (ctid : option nat)
    (quantity : nat) (cost : Q) : Q * Q :=
  let rule :=
    if truthy_nat ctid then
      match ctid with Some c => find_rule t today user bid c | None => None end
    else None in
  match rule with
  | Some r => rule_pricing cost quantity r
  | None => (cost * (1 + fallback_margin t user bid ctid / 100), 0)
  end.

(** Steps 4-6: volume discount, cap at MRP, realized margin, NPPA flag and
    the returned dict. *)
Definition finish_price (bid quantity : nat) (b : brand)
    (sell_price volume_discount : Q) : price_result :=
  let cost := cost_price b in
  let sell_price :=
    if Qltb 0 volume_discount
    then sell_price * (1 - volume_discount / 100) else sell_price in
  let sell_price := py_min sell_price (mrp b) in
  let final_margin := resolver_margin sell_price cost in
  let '(compliant, msg) :=
    if is_nppa_controlled b && truthy_opt (nppa_margin_limit b) then
      match nppa_margin_limit b with
      | Some lim =>
          if Qltb lim final_margin then (false, MsgExceeds final_margin lim)
          else (true, MsgCompliant)
      | None => (true, MsgCompliant)
      end
    else (true, MsgCompliant) in
  mkPriceResult bid cost (mrp b) sell_price quantity final_margin
    (sell_price - cost) ((sell_price - cost) * inject_Z (Z.of_nat quantity))
    (sell_price * inject_Z (Z.of_nat quantity)) volume_discount
    (is_nppa_controlled b) compliant msg.

Definition calculate_price (t : tables) (today user bid : nat)
    (ctid : option nat) (quantity : nat) : result price_result :=
  match find_active_brand t user bid with
  | None => Err (ValueError BrandNotFound)
  | Some b =>
      let '(sell_price, volume_discount) :=
        base_pricing t today user bid ctid quantity (cost_price b) in
      Ok (finish_price bid quantity b sell_price volume_discount)
  end.

(** ** [PricingEngineService.check_nppa_compliance] *)

Record compliance_result := mkCompliance {
  cr_brand_id : nat;
  cr_proposed_price : Q;
  cr_cost_price : Q;
  cr_margin_percentage : Q;
  cr_is_nppa_controlled : bool;
  cr_nppa_limit : option Q;
  cr_is_compliant : bool;
  cr_message : nppa_msg
}.

(** [margin_percentage] of [check_nppa_compliance]. *)
Definition checker_margin (proposed_price cost : Q) : Q :=
  if Qltb 0 cost then (proposed_price - cost) / cost * 100 else 0.

Definition check_nppa_compliance (t : tables) (bid : nat) (proposed_price : Q)
    (user : nat) : result compliance_result :=
  match find_active_brand t user bid with
  | None => Err (ValueError BrandNotFound)
  | Some b =>
      let cost := cost_price b in
      let margin := checker_margin proposed_price cost in
      if is_nppa_controlled b then
        if negb (truthy_opt (nppa_margin_limit b)) then
          (* the early return; its dict has no "nppa_limit" key *)
          Ok (mkCompliance bid proposed_price cost margin true None true MsgNoLimitSet)
        else
          match nppa_margin_limit b with
          | Some lim =>
              if Qltb lim margin
              then Ok (mkCompliance bid proposed_price cost margin true (Some lim)
                         false (MsgExceeds margin lim))
              else Ok (mkCompliance bid proposed_price cost margin true (Some lim)
                         true MsgPriceCompliant)
          | None => Ok (mkCompliance bid proposed_price cost margin true None
                          true MsgPriceCompliant)
          end
      else
        Ok (mkCompliance bid proposed_price cost margin false
              (if truthy_opt (nppa_margin_limit b) then nppa_margin_limit b else None)
              true MsgPriceCompliant)
  end.

(** ** Database session

    [committed] is what other requests see; [work] is the open
    transaction.  [db.commit()] publishes [work]; [db.rollback()] drops
    it.  Each request starts on a fresh session ([work = committed]). *)

Record session := mkSession { committed : tables; work : tables }.

Definition M (A : Type) : Type := session -> result A * session.

Definition ret {A} (a : A) : M A := fun s => (Ok a, s).

Definition bind {A B} (m : M A) (f : A -> M B) : M B :=
  fun s => match m s with
           | (Ok a, s') => f a s'
           | (Err e, s') => (Err e, s')
           end.

Notation "x <- m ;; k" := (bind m (fun x => k))
  (at level 61, m at next level, right associativity).
Notation "m ;; k" := (bind m (fun _ => k))
  (at level 61, right associativity).

Definition raise {A} (e : exn) : M A := fun s => (Err e, s).

(** [try: body except ...: handler]. *)
Definition try_catch {A} (body : M A) (handler : exn -> M A) : M A :=
  fun s => match body s with
           | (Ok a, s') => (Ok a, s')
           | (Err e, s') => handler e s'
           end.

(** A [SELECT] sees the open transaction. *)
Definition query {A} (f : tables -> A) : M A := fun s => (Ok (f (work s)), s).

Definition commit : M unit := fun s => (Ok tt, mkSession (work s) (work s)).

Definition rollback : M unit :=
  fun s => (Ok tt, mkSession (committed s) (committed s)).

(** The write statements of [quote.py]. *)
Inductive stmt :=
  | InsertQuote (user : nat) (number customer_name : string)
      (customer_type : option nat) (total_amount total_margin : Q)
  | InsertLine (quote : nat) (brand quantity : nat)
      (unit_price margin_percentage discount line_total margin_earned : Q)
  | DeleteLines (quote : nat)
  | DeleteQuote (quote user : nat)
  | UpdateStatus (quote user : nat) (status : quote_status).

Definition quote_key (qid user : nat) (q : quote_row) : bool :=
  Nat.eqb (q_id q) qid && Nat.eqb (q_user q) user.

Definition set_status (st : quote_status) (q : quote_row) : quote_row :=
  mkQuote (q_id q) (q_user q) (q_number q) (q_customer_name q)
    (q_customer_type q) st (q_total_amount q) (q_total_margin q).

Definition with_quotes (t : tables) (qs : list quote_row) (next : nat) : tables :=
  mkTables (brands t) (customer_types t) (pricing_rules t) qs
    (quote_line_items t) next (next_line_id t).

Definition with_lines (t : tables) (ls : list line_row) (next : nat) : tables :=
  mkTables (brands t) (customer_types t) (pricing_rules t) (quotes t)
    ls (next_quote_id t) next.

(** Effect of a statement on the tables; new rows are appended and take
    their id from the table's sequence, so storage order is id order. *)
Definition apply_stmt (st : stmt) (t : tables) : tables :=
  match st with
  | InsertQuote user number name ctid amount margin =>
      with_quotes t
        (quotes t ++ [mkQuote (next_quote_id t) user number name ctid Draft
                        amount margin])
        (S (next_quote_id t))
  | InsertLine qid bid qty up mp d lt me =>
      with_lines t
        (quote_line_items t ++ [mkLine (next_line_id t) qid bid qty up mp d lt me])
        (S (next_line_id t))
  | DeleteLines qid =>
      with_lines t
        (filter (fun l => negb (Nat.eqb (l_quote l) qid)) (quote_line_items t))
        (next_line_id t)
  | DeleteQuote qid user =>
      with_quotes t (filter (fun q => negb (quote_key qid user q)) (quotes t))
        (next_quote_id t)
  | UpdateStatus qid user st =>
      with_quotes t
        (map (fun q => if quote_key qid user q then set_status st q else q)
             (quotes t))
        (next_quote_id t)
  end.

(** [db.execute(...)] of a write.  [fault] says which statements the
    storage rejects (constraint violation, lost connection, ...); such a
    failure is a database [Exception], not a [ValueError]. *)
Definition db_execute (fault : stmt -> bool) (st : stmt) : M unit :=
  fun s => if fault st then (Err (Exception "storage error"), s)
           else (Ok tt, mkSession (committed s) (apply_stmt st (work s))).

(** ** [QuoteService.get_quote] *)

Record quote_view := mkView {
  qv_id : nat;
  qv_user : nat;
  qv_number : string;
  qv_status : quote_status;
  qv_total_amount : Q;
  qv_total_margin : Q;
  qv_total_items : nat;
  qv_line_items : list line_row
}.

(** [SELECT ... FROM quote_line_items WHERE quote_id = :quote_id ORDER BY
    id ASC]; storage order is id order (see [apply_stmt]). *)
Definition lines_of (t : tables) (qid : nat) : list line_row :=
  filter (fun l => Nat.eqb (l_quote l) qid) (quote_line_items t).

Definition get_quote (user qid : nat) : M quote_view :=
  try_catch
    (q <- query (fun t => find (quote_key qid user) (quotes t)) ;;
     match q with
     | None => raise (ValueError QuoteNotFound)
     | Some q =>
         items <- query (fun t => lines_of t qid) ;;
         ret (mkView (q_id q) user (q_number q) (q_status q) (q_total_amount q)
                (q_total_margin q) (List.length items) items)
     end)
    (fun e => match e with
              | ValueError m => raise (ValueError m)
              | Exception _ => raise (Exception "Failed to get quote")
              end).

(** ** [QuoteService.create_quote] *)

(** A line item request, as [item.dict()] of [QuoteLineItemCreate]. *)
Record line_req := mkReq {
  li_brand : nat;
  li_quantity : nat;
  li_unit_price : option Q;
  li_margin_percentage : option Q;
  li_discount : option Q
}.

Record processed := mkProcessed {
  p_brand : nat;
  p_quantity : nat;
  p_unit_price : Q;
  p_margin_percentage : Q;
  p_discount : Q;
  p_line_total : Q;
  p_margin_earned : Q
}.

Definition Qnat (n : nat) : Q := inject_Z (Z.of_nat n).

(** Unit price before the discount. *)
Definition base_unit_price (b : brand) (item : line_req) : Q :=
  if truthy_opt (li_unit_price item) then
    match li_unit_price item with Some p => p | None => 0 end
  else if truthy_opt (li_margin_percentage item) then
    match li_margin_percentage item with
    | Some m => py_min (cost_price b * (1 + m / 100)) (mrp b)
    | None => 0
    end
  else mrp b.

(** One pass of the loop over [line_items]. *)
Definition process_item (user : nat) (item : line_req) : M processed :=
  b <- query (fun t => find_active_brand t user (li_brand item)) ;;
  match b with
  | None => raise (ValueError (BrandIdNotFound (li_brand item)))
  | Some b =>
      match li_discount item with
      | None => raise (Exception "TypeError")   (* None > 0 *)
      | Some d =>
          let cost := cost_price b in
          let unit_price := base_unit_price b item in
          let unit_price :=
            if Qltb 0 d then unit_price * (1 - d / 100) else unit_price in
          let line_total := unit_price * Qnat (li_quantity item) in
          let margin_per_unit := unit_price - cost in
          let line_margin := margin_per_unit * Qnat (li_quantity item) in
          let actual_margin :=
            if Qltb 0 cost then margin_per_unit / cost * 100 else 0 in
          ret (mkProcessed (li_brand item) (li_quantity item) unit_price
                 actual_margin d line_total line_margin)
      end
  end.

(** The loop, threading [total_amount], [total_margin] and
    [processed_items]. *)
Fixpoint process_items (user : nat) (items : list line_req)
    (total_amount total_margin : Q) (acc : list processed)
  : M (Q * Q * list processed) :=
  match items with
  | [] => ret (total_amount, total_margin, acc)
  | item :: rest =>
      p <- process_item user item ;;
      process_items user rest (total_amount + p_line_total p)
        (total_margin + p_margin_earned p) (acc ++ [p])
  end.

Fixpoint insert_lines (fault : stmt -> bool) (qid : nat) (ps : list processed)
  : M unit :=
  match ps with
  | [] => ret tt
  | p :: rest =>
      db_execute fault
        (InsertLine qid (p_brand p) (p_quantity p) (p_unit_price p)
           (p_margin_percentage p) (p_discount p) (p_line_total p)
           (p_margin_earned p)) ;;
      insert_lines fault qid rest
  end.

(** [SELECT id FROM quotes WHERE quote_number = :quote_number], [scalar()]. *)
Definition quote_id_by_number (t : tables) (number : string) : option nat :=
  option_map q_id (find (fun q => String.eqb (q_number q) number) (quotes t)).

(** [quote_number] is the value [_generate_quote_number] drew; contact
    fields, notes and timestamps are stored but never read back by the
    properties here, so they are left out. *)
Definition create_quote (fault : stmt -> bool) (quote_number : string)
    (user : nat) (customer_name : string) (ctid : option nat)
    (line_items : list line_req) : M quote_view :=
  try_catch
    (totals <- process_items user line_items 0 0 [] ;;
     let '(total_amount, total_margin, processed_items) := totals in
     db_execute fault
       (InsertQuote user quote_number customer_name ctid total_amount
          total_margin) ;;
     commit ;;
     quote_id <- query (fun t => quote_id_by_number t quote_number) ;;
     match quote_id with
     | None => raise (ValueError QuoteNotFound)  (* the row was just inserted *)
     | Some quote_id =>
         insert_lines fault quote_id processed_items ;;
         commit ;;
         get_quote user quote_id
     end)
    (fun e => match e with
              | ValueError m => raise (ValueError m)
              | Exception _ => rollback ;; raise (Exception "Failed to create quote")
              end).

(** ** [QuoteService.update_quote_status] *)

Definition update_quote_status (fault : stmt -> bool) (user qid : nat)
    (status : quote_status) : M quote_view :=
  try_catch
    (db_execute fault (UpdateStatus qid user status) ;;
     commit ;;
     get_quote user qid)
    (fun _ => rollback ;; raise (Exception "Failed to update quote")).

(** ** [QuoteService.delete_quote] *)

Definition delete_quote (fault : stmt -> bool) (user qid : nat) : M bool :=
  try_catch
    (row <- query (fun t => option_map q_status (find (quote_key qid user) (quotes t))) ;;
     match row with
     | None => raise (ValueError QuoteNotFound)
     | Some st =>
         if negb (quote_status_eqb st Draft) then raise (ValueError OnlyDraftDeletable)
         else
           db_execute fault (DeleteLines qid) ;;
           db_execute fault (DeleteQuote qid user) ;;
           commit ;;
           ret true
     end)
    (fun e => match e with
              | ValueError m => raise (ValueError m)
              | Exception _ => rollback ;; raise (Exception "Failed to delete quote")
              end).

(** ** Concrete stores *)

(** Owner 1's catalogue: brand 1 (cost 30, MRP 35, default margin 10%),
    brand 2 (NPPA-controlled, limit stored as 0), brand 3 (NPPA-controlled,
    limit 10%); customer type 1 with default margin 15%; no pricing rule. *)
Definition brand_1 := mkBrand 1 1 30 35 (Some 10) false None true.
Definition brand_2 := mkBrand 2 1 20 40 None true (Some 0) true.
Definition brand_3 := mkBrand 3 1 20 40 None true (Some 10) true.
Definition retailer := mkCustomerType 1 1 (Some 15).

Definition catalogue : tables :=
  mkTables [brand_1; brand_2; brand_3] [retailer] [] [] [] 1 1.

(** A request's session before its first statement. *)
Definition fresh (t : tables) : session := mkSession t t.

(** Storage that accepts every statement. *)
Definition no_fault (_ : stmt) : bool := false.

(** Storage that rejects the [INSERT INTO quote_line_items] statement. *)
Definition line_insert_fails (st : stmt) : bool :=
  match st with InsertLine _ _ _ _ _ _ _ _ => true | _ => false end.

(** The two [DELETE]s of [delete_quote], in order. *)
Definition delete_cascade (qid user : nat) (t : tables) : tables :=
  apply_stmt (DeleteQuote qid user) (apply_stmt (DeleteLines qid) t).

(** [SUM(line_total)] and [SUM(margin_earned)] over stored line items, in
    storage order. *)
Definition sum_line_totals (ls : list line_row) : Q :=
  fold_left (fun acc l => acc + l_line_total l) ls 0.

Definition sum_margin_earned (ls : list line_row) : Q :=
  fold_left (fun acc l => acc + l_margin_earned l) ls 0.

(** Owner 1's quotes: quote 1 (sent, one line) and quote 2 (draft, one
    line). *)
Definition sent_quote := mkQuote 1 1 "QT-1-20261014-AB12CD" "City Pharmacy" None Sent 70 10.
Definition draft_quote := mkQuote 2 1 "QT-1-20261015-XY34ZW" "ABC Hospital" None Draft 105 15.
Definition sent_line := mkLine 1 1 1 2 35 (50 # 3) 0 70 10.
Definition draft_line := mkLine 2 2 1 3 35 (50 # 3) 0 105 15.

Definition quote_book : tables :=
  mkTables [brand_1; brand_2; brand_3] [retailer] [] [sent_quote; draft_quote]
    [sent_line; draft_line] 3 3.

(** Line requests on brand 1: an explicit price of 20 with 10% discount;
    a margin of 0%. *)
Definition priced_item := mkReq 1 3 (Some 20) None (Some 10).
Definition zero_margin_item := mkReq 1 2 None (Some 0) (Some 0).

(** The rows [insert_lines] appends, with ids from [n] on. *)
Fixpoint line_rows (qid n : nat) (ps : list processed) : list line_row :=
  match ps with
  | [] => []
  | p :: rest =>
      mkLine n qid (p_brand p) (p_quantity p) (p_unit_price p)
        (p_margin_percentage p) (p_discount p) (p_line_total p)
        (p_margin_earned p) :: line_rows qid (S n) rest
  end.

(** ** [QuoteService._generate_quote_number] *)

(** Decimal digits of [str(n)]. *)
Fixpoint uint_text (d : Decimal.uint) : string :=
  match d with
  | Decimal.Nil => EmptyString
  | Decimal.D0 d => String "0"%char (uint_text d)
  | Decimal.D1 d => String "1"%char (uint_text d)
  | Decimal.D2 d => String "2"%char (uint_text d)
  | Decimal.D3 d => String "3"%char (uint_text d)
  | Decimal.D4 d => String "4"%char (uint_text d)
  | Decimal.D5 d => String "5"%char (uint_text d)
  | Decimal.D6 d => String "6"%char (uint_text d)
  | Decimal.D7 d => String "7"%char (uint_text d)
  | Decimal.D8 d => String "8"%char (uint_text d)
  | Decimal.D9 d => String "9"%char (uint_text d)
  end.

(** [str(n)] (or an f-string field) of a non-negative [int]. *)
Definition int_text (n : nat) : string := uint_text (Nat.to_uint n).

(** [f"QT-{user_id}-{timestamp}-{random_suffix}"]; [timestamp] is
    [datetime.now().strftime("%Y%m%d")] and [random_suffix] the six
    characters [random.choices] drew, both inputs of the model. *)
Definition generate_quote_number (user_id : nat) (timestamp random_suffix : string)
  : string :=
  "QT-" ++ int_text user_id ++ "-" ++ timestamp ++ "-" ++ random_suffix.

(** ** [QuoteService.list_quotes] *)

(** The [status] column holds the value of the [QuoteStatus] enum. *)
Definition status_text (s : quote_status) : string :=
  match s with
  | Draft => "draft"
  | Sent => "sent"
  | Viewed => "viewed"
  | Accepted => "accepted"
  | Rejected => "rejected"
  | Expired => "expired"
  end.

(** Case folding of [ILIKE] on ASCII letters. *)
Definition lower (c : ascii) : ascii :=
  let n := nat_of_ascii c in
  if Nat.leb 65 n && Nat.leb n 90 then ascii_of_nat (n + 32) else c.

(** The default [LIKE] escape character. *)
Definition backslash : ascii := ascii_of_nat 92.

(** [s LIKE p]: [%] matches any sequence, [_] any one character, the escape
    character makes the next one literal.  A pattern ending in a lone escape
    character is an error in the database; the patterns [list_quotes] builds
    end in [%] and never do. *)
Fixpoint like_match (p s : list ascii) : bool :=
  match p with
  | [] => match s with [] => true | _ :: _ => false end
  | c :: p' =>
      if Ascii.eqb c "%"%char then
        (fix any (s : list ascii) : bool :=
           like_match p' s || match s with [] => false | _ :: s' => any s' end) s
      else if Ascii.eqb c "_"%char then
        match s with [] => false | _ :: s' => like_match p' s' end
      else if Ascii.eqb c backslash then
        match p', s with
        | e :: p'', x :: s' => Ascii.eqb e x && like_match p'' s'
        | _, _ => false
        end
      else
        match s with [] => false | x :: s' => Ascii.eqb c x && like_match p' s' end
  end.

(** [s ILIKE pattern]. *)
Definition ilike (s pattern : string) : bool :=
  like_match (map lower (list_ascii_of_string pattern))
             (map lower (list_ascii_of_string s)).

(** The [WHERE] clause: [user_id = :user_id], then [AND status = :status]
    when [status] is truthy and [AND customer_name ILIKE '%name%'] when
    [customer_name] is truthy. *)
Definition list_where (user : nat) (status customer_name : option string)
    (q : quote_row) : bool :=
  Nat.eqb (q_user q) user &&
  match status with
  | Some st => if String.eqb st "" then true else String.eqb (status_text (q_status q)) st
  | None => true
  end &&
  match customer_name with
  | Some n =>
      if String.eqb n "" then true
      else ilike (q_customer_name q) ("%" ++ n ++ "%")
  | None => true
  end.

(** The [ORDER BY] clause [sort_by] selects. *)
Inductive sort_clause := ByQuoteDateDesc | ByAmountDesc | ByStatusAsc.

Definition sort_clause_of (sort_by : option string) : sort_clause :=
  match sort_by with
  | Some s =>
      if String.eqb s "amount" then ByAmountDesc
      else if String.eqb s "status" then ByStatusAsc else ByQuoteDateDesc
  | None => ByQuoteDateDesc
  end.

Record quote_page := mkPage {
  qp_quotes : list quote_row;
  qp_total : nat;
  qp_limit : nat;
  qp_offset : nat;
  qp_has_more : bool
}.

(** [order_by] is the order the database returns the selected rows in for
    a clause; it sorts on [quote_date] (not in the model) and leaves ties
    unordered, so it is a parameter of the model. *)
Definition list_quotes
    (order_by : sort_clause -> list quote_row -> list quote_row)
    (user : nat) (status customer_name sort_by : option string)
    (limit offset : nat) : M quote_page :=
  try_catch
    (total <- query (fun t =>
               List.length (filter (list_where user status customer_name) (quotes t))) ;;
     rows <- query (fun t =>
               firstn limit (skipn offset
                 (order_by (sort_clause_of sort_by)
                    (filter (list_where user status customer_name) (quotes t))))) ;;
     ret (mkPage rows total limit offset (Nat.ltb (offset + limit) total)))
    (fun _ => raise (Exception "Failed to list quotes")).

(** ** The routes ([routes/quote_routes.py], [routes/pricing_routes.py]) *)

(** The route's answer: its data, or the [HTTPException] it raises. *)
Inductive response (A : Type) :=
  | Success (data : A)
  | HttpError (status_code : nat) (detail : string).
Arguments Success {A} data.
Arguments HttpError {A} status_code detail.

(** [str(e)] of the service's [ValueError]s. *)
Definition value_msg_text (m : value_msg) : string :=
  match m with
  | BrandNotFound => "Brand not found"
  | BrandIdNotFound id => "Brand " ++ int_text id ++ " not found"
  | QuoteNotFound => "Quote not found"
  | OnlyDraftDeletable => "Can only delete draft quotes"
  end.

(** [except ValueError as e: HTTPException(value_code, str(e))] then
    [except Exception: HTTPException(500, opaque)]. *)
Definition respond {A} (value_code : nat) (opaque : string) (r : result A)
  : response A :=
  match r with
  | Ok a => Success a
  | Err (ValueError m) => HttpError value_code (value_msg_text m)
  | Err (Exception _) => HttpError 500 opaque
  end.

(** A request runs on a fresh session ([get_db]); what it committed is what
    stays in the database. *)
Definition run {A} (m : M A) (t : tables) : result A * tables :=
  let '(r, s) := m (fresh t) in (r, committed s).

Definition calculate_price_route (t : tables) (today user bid : nat)
    (ctid : option nat) (quantity : nat) : response price_result :=
  respond 404 "Failed to calculate price" (calculate_price t today user bid ctid quantity).

Definition check_nppa_compliance_route (t : tables) (user bid : nat)
    (proposed_price : Q) : response compliance_result :=
  respond 404 "Failed to check NPPA compliance"
    (check_nppa_compliance t bid proposed_price user).

Definition create_quote_route (fault : stmt -> bool) (quote_number : string)
    (user : nat) (customer_name : string) (ctid : option nat)
    (line_items : list line_req) (t : tables) : response quote_view * tables :=
  let '(r, t') := run (create_quote fault quote_number user customer_name ctid line_items) t in
  (respond 400 "Failed to create quote" r, t').

Definition list_quotes_route
    (order_by : sort_clause -> list quote_row -> list quote_row)
    (user : nat) (status customer_name sort_by : option string)
    (limit offset : nat) (t : tables) : response quote_page * tables :=
  let '(r, t') := run (list_quotes order_by user status customer_name sort_by limit offset) t in
  (match r with
   | Ok p => Success p
   | Err _ => HttpError 500 "Failed to list quotes"
   end, t').

Definition get_quote_route (user qid : nat) (t : tables)
  : response quote_view * tables :=
  let '(r, t') := run (get_quote user qid) t in
  (respond 404 "Failed to get quote" r, t').

(** [request.status] is [None] when the body has no status. *)
Definition update_quote_route (fault : stmt -> bool) (user qid : nat)
    (status : option quote_status) (t : tables) : response quote_view * tables :=
  match status with
  | None => (HttpError 400 "Status is required", t)
  | Some st =>
      let '(r, t') := run (update_quote_status fault user qid st) t in
      (respond 400 "Failed to update quote" r, t')
  end.

Definition delete_quote_route (fault : stmt -> bool) (user qid : nat) (t : tables)
  : response bool * tables :=
  let '(r, t') := run (delete_quote fault user qid) t in
  (respond 400 "Failed to delete quote" r, t').

(** ** Helpers of the statements below *)

(** An [order_by] for the examples: the rows as stored. *)
Definition as_stored (_ : sort_clause) (l : list quote_row) : list quote_row := l.

(** The brand with its NPPA columns replaced. *)
Definition restamp_nppa (g : brand -> bool * option Q) (b : brand) : brand :=
  mkBrand (b_id b) (b_user b) (cost_price b) (mrp b) (default_margin b)
    (fst (g b)) (snd (g b)) (is_active b).

Definition with_brands (t : tables) (bs : list brand) : tables :=
  mkTables bs (customer_types t) (pricing_rules t) (quotes t)
    (quote_line_items t) (next_quote_id t) (next_line_id t).

Definition with_rules (t : tables) (cts : list customer_type)
    (rs : list pricing_rule) : tables :=
  mkTables (brands t) cts rs (quotes t) (quote_line_items t)
    (next_quote_id t) (next_line_id t).


(** * Properties *)

(** ** Python comparison helpers *)

Lemma Qltb_true x y : Qltb x y = true -> x < y.
Proof.
  unfold Qltb. intro H. apply negb_true_iff in H.
  apply Qnot_le_lt. intro C. apply Qle_bool_iff in C. congruence.
Qed.

Lemma Qltb_false x y : Qltb x y = false -> y <= x.
Proof.
  unfold Qltb. intro H. apply negb_false_iff in H. apply Qle_bool_iff. exact H.
Qed.

Lemma py_min_le_r a b : py_min a b <= b.
Proof.
  unfold py_min. destruct (Qltb b a) eqn:E.
  - apply Qle_refl.
  - exact (Qltb_false _ _ E).
Qed.

Lemma truthy_zero l : l == 0 -> truthy l = false.
Proof.
  intro H. unfold truthy. apply Qeq_bool_iff in H. rewrite H. reflexivity.
Qed.

(** ** The realized-margin arithmetic *)

Lemma finish_price_fields bid quantity b sp vd :
  let r := finish_price bid quantity b sp vd in
  (pr_unit_price r =
    py_min (if Qltb 0 vd then sp * (1 - vd / 100) else sp) (mrp b)) /\
  pr_mrp r = mrp b /\
  pr_cost_price r = cost_price b /\
  pr_margin_percentage r = resolver_margin (pr_unit_price r) (cost_price b) /\
  (pr_nppa_compliant r =
    (if is_nppa_controlled b && truthy_opt (nppa_margin_limit b) then
       match nppa_margin_limit b with
       | Some lim => negb (Qltb lim (pr_margin_percentage r))
       | None => true
       end
     else true)).
Proof.
  unfold finish_price. cbv zeta.
  set (p := py_min _ (mrp b)).
  set (m := resolver_margin p (cost_price b)).
  destruct (is_nppa_controlled b && truthy_opt (nppa_margin_limit b)); simpl.
  - destruct (nppa_margin_limit b) as [lim|]; simpl.
    + destruct (Qltb lim m) eqn:E; simpl; repeat split; rewrite E; reflexivity.
    + repeat split.
  - repeat split.
Qed.

Lemma calculate_price_ok t today user bid ctid quantity r :
  calculate_price t today user bid ctid quantity = Ok r ->
  exists b sp vd, find_active_brand t user bid = Some b /\
                  r = finish_price bid quantity b sp vd.
Proof.
  unfold calculate_price. destruct (find_active_brand t user bid) as [b|];
    [|discriminate].
  destruct (base_pricing t today user bid ctid quantity (cost_price b)) as [sp vd].
  intro H. injection H as <-. eauto.
Qed.

Lemma calculate_price_found t today user bid ctid quantity b :
  find_active_brand t user bid = Some b ->
  exists sp vd, calculate_price t today user bid ctid quantity =
                Ok (finish_price bid quantity b sp vd).
Proof.
  intro Hb. unfold calculate_price. rewrite Hb.
  destruct (base_pricing t today user bid ctid quantity (cost_price b)) as [sp vd].
  eauto.
Qed.

Lemma check_nppa_compliance_found t bid p user b :
  find_active_brand t user bid = Some b ->
  exists c, check_nppa_compliance t bid p user = Ok c /\
            cr_margin_percentage c = checker_margin p (cost_price b) /\
            cr_cost_price c = cost_price b /\
            cr_is_nppa_controlled c = is_nppa_controlled b.
Proof.
  intro Hb. unfold check_nppa_compliance. rewrite Hb.
  destruct (is_nppa_controlled b) eqn:E; simpl;
    [destruct (truthy_opt (nppa_margin_limit b)); simpl;
     [destruct (nppa_margin_limit b) as [lim|]; [destruct (Qltb lim _)|] |] |];
    eexists; repeat split; auto.
Qed.

(** ** Claims on the pricing resolver and the compliance checker *)

(** C1: for every owner, active brand, customer type, quantity and store of
    rules, [calculate_price] succeeds and its unit price is at most the
    brand's MRP: the final [min(sell_price, mrp)] is applied on every path,
    also over a rule's explicit sell price. *)
Theorem calculate_price_capped_at_mrp t today user bid ctid quantity b :
  find_active_brand t user bid = Some b ->
  exists r, calculate_price t today user bid ctid quantity = Ok r /\
            pr_mrp r = mrp b /\ pr_unit_price r <= mrp b.
Proof.
  intro Hb. destruct (calculate_price_found t today user bid ctid quantity b Hb)
    as (sp & vd & ->).
  eexists. split; [reflexivity|].
  destruct (finish_price_fields bid quantity b sp vd) as (Hp & Hm & _).
  rewrite Hp, Hm. split; [reflexivity | apply py_min_le_r].
Qed.

Lemma calculate_price_capped_at_mrp_witness :
  find_active_brand catalogue 1 1 = Some brand_1 /\
  exists r, calculate_price catalogue 0 1 1 (Some 1%nat) 5 = Ok r /\
            pr_mrp r = mrp brand_1 /\ pr_unit_price r <= mrp brand_1.
Proof.
  split; [reflexivity|].
  apply (calculate_price_capped_at_mrp catalogue 0 1 1 (Some 1%nat) 5 brand_1).
  reflexivity.
Defined.

(** C2 (failing input): with no rule, customer type 1 found with default
    margin 15% and brand 1's own default margin 10%, [calculate_price]
    prices from the brand's 10% (unit price 33 = 30 x 1.10), not from the
    customer type's 15% (34.5): the brand-margin query overwrites the
    customer-type margin whenever the brand margin is set. *)
Theorem calculate_price_brand_margin_overrides_customer_type :
  find_rule catalogue 0 1 1 1 = None /\
  find_customer_type_margin catalogue 1 1 = Some (Some 15) /\
  fallback_margin catalogue 1 1 (Some 1%nat) = 10 /\
  exists r, calculate_price catalogue 0 1 1 (Some 1%nat) 5 = Ok r /\
            pr_unit_price r == 33 /\ ~ pr_unit_price r == 69 # 2.
Proof.
  split; [reflexivity|]. split; [reflexivity|]. split; [reflexivity|].
  eexists. split; [reflexivity|].
  split; vm_compute; [reflexivity | discriminate].
Qed.

(** C4: the realized margin of [calculate_price] (recomputed from the
    capped price) and the margin of [check_nppa_compliance] are the same
    function of (price, cost): [(price - cost) / cost * 100], [0] when the
    cost is not positive; and checking the resolver's own unit price gives
    exactly the resolver's margin. *)
Theorem resolver_checker_margin_agree :
  (forall price cost,
     resolver_margin price cost = checker_margin price cost /\
     checker_margin price cost =
       (if Qltb 0 cost then (price - cost) / cost * 100 else 0)) /\
  (forall t today user bid ctid quantity r,
     calculate_price t today user bid ctid quantity = Ok r ->
     exists c, check_nppa_compliance t bid (pr_unit_price r) user = Ok c /\
               cr_cost_price c = pr_cost_price r /\
               cr_margin_percentage c = pr_margin_percentage r).
Proof.
  split.
  - intros price cost. split; reflexivity.
  - intros t today user bid ctid quantity r H.
    destruct (calculate_price_ok _ _ _ _ _ _ _ H) as (b & sp & vd & Hb & ->).
    destruct (check_nppa_compliance_found t bid
                (pr_unit_price (finish_price bid quantity b sp vd)) user b Hb)
      as (c & Hc & Hmc & Hcc & _).
    destruct (finish_price_fields bid quantity b sp vd) as (_ & _ & Hcost & Hmar & _).
    exists c. rewrite Hc, Hmc, Hcc, Hcost, Hmar. repeat split.
Qed.

Lemma resolver_checker_margin_agree_witness :
  calculate_price catalogue 0 1 3 None 2 =
    Ok (finish_price 3 2 brand_3 (20 * (1 + 0 / 100)) 0) /\
  exists c, check_nppa_compliance catalogue 3
              (pr_unit_price (finish_price 3 2 brand_3 (20 * (1 + 0 / 100)) 0)) 1
            = Ok c /\
            cr_cost_price c = pr_cost_price (finish_price 3 2 brand_3 (20 * (1 + 0 / 100)) 0) /\
            cr_margin_percentage c =
              pr_margin_percentage (finish_price 3 2 brand_3 (20 * (1 + 0 / 100)) 0).
Proof.
  split; [reflexivity|].
  apply (proj2 resolver_checker_margin_agree catalogue 0%nat 1%nat 3%nat None 2%nat).
  reflexivity.
Defined.

Lemma truthy_false l : truthy l = false -> l == 0.
Proof.
  unfold truthy. intro H. apply negb_false_iff in H. apply Qeq_bool_iff. exact H.
Qed.

Lemma truthy_true l : truthy l = true -> ~ l == 0.
Proof.
  unfold truthy. intros H E. apply Qeq_bool_iff in E. rewrite E in H. discriminate.
Qed.

(** C7 (counterexample): brand 2 is NPPA-controlled with its limit stored
    as 0; a proposed price of 25 on cost 20 is a 25% margin, above that
    limit, and [check_nppa_compliance] still answers compliant. *)
Lemma check_nppa_compliance_zero_limit_counterexample :
  find_active_brand catalogue 1 2 = Some brand_2 /\
  is_nppa_controlled brand_2 = true /\ nppa_margin_limit brand_2 = Some 0 /\
  exists c, check_nppa_compliance catalogue 2 25 1 = Ok c /\
            cr_margin_percentage c == 25 /\ 0 < cr_margin_percentage c /\
            cr_is_compliant c = true.
Proof.
  split; [reflexivity|]. split; [reflexivity|]. split; [reflexivity|].
  eexists. split; [reflexivity|].
  split; [vm_compute; reflexivity|]. split; [vm_compute; reflexivity | reflexivity].
Qed.

(** C7 (amended): for an existing active brand and any proposed price,
    [check_nppa_compliance] computes the margin [(price - cost)/cost*100]
    and is compliant when the brand is not NPPA-controlled; when it is and
    its limit is absent or 0, compliant with the "no margin limit set"
    message; otherwise compliant iff margin <= limit, and a non-compliant
    verdict carries the message with the margin and the limit. *)
Theorem check_nppa_compliance_verdict t bid price user b :
  find_active_brand t user bid = Some b ->
  exists c, check_nppa_compliance t bid price user = Ok c /\
    cr_margin_percentage c = checker_margin price (cost_price b) /\
    (is_nppa_controlled b = false -> cr_is_compliant c = true) /\
    (is_nppa_controlled b = true ->
       (forall l, nppa_margin_limit b = Some l -> ~ l == 0 ->
          (cr_is_compliant c = true <-> cr_margin_percentage c <= l) /\
          (cr_is_compliant c = false ->
             cr_message c = MsgExceeds (cr_margin_percentage c) l)) /\
       ((nppa_margin_limit b = None \/
         exists l, nppa_margin_limit b = Some l /\ l == 0) ->
          cr_is_compliant c = true /\ cr_message c = MsgNoLimitSet)).
Proof.
  intro Hb. unfold check_nppa_compliance. rewrite Hb.
  destruct (is_nppa_controlled b) eqn:En.
  - destruct (nppa_margin_limit b) as [l|] eqn:El; simpl.
    + destruct (truthy l) eqn:Et; simpl.
      * destruct (Qltb l (checker_margin price (cost_price b))) eqn:Eq.
        -- eexists. split; [reflexivity|]. simpl.
           split; [reflexivity|]. split; [discriminate|]. intros _. split.
           ++ intros l' [= <-] _. split.
              ** split; [discriminate|]. intro C. apply Qltb_true in Eq.
                 exfalso. exact (Qlt_not_le _ _ Eq C).
              ** intros _. reflexivity.
           ++ intros [D | (l' & [= <-] & Z)]; [discriminate|].
              exfalso. exact (truthy_true _ Et Z).
        -- eexists. split; [reflexivity|]. simpl.
           split; [reflexivity|]. split; [discriminate|]. intros _. split.
           ++ intros l' [= <-] _. split.
              ** split; [intros _; exact (Qltb_false _ _ Eq) | reflexivity].
              ** discriminate.
           ++ intros [D | (l' & [= <-] & Z)]; [discriminate|].
              exfalso. exact (truthy_true _ Et Z).
      * eexists. split; [reflexivity|]. simpl.
        split; [reflexivity|]. split; [discriminate|]. intros _. split.
        -- intros l' [= <-] NZ. exfalso. exact (NZ (truthy_false _ Et)).
        -- intros _. split; reflexivity.
    + eexists. split; [reflexivity|]. simpl.
      split; [reflexivity|]. split; [discriminate|]. intros _. split.
      * intros l' [=].
      * intros _. split; reflexivity.
  - eexists. split; [reflexivity|]. simpl.
    split; [reflexivity|]. split; [reflexivity|]. discriminate.
Qed.

Lemma check_nppa_compliance_verdict_witness :
  find_active_brand catalogue 1 3 = Some brand_3 /\
  exists c, check_nppa_compliance catalogue 3 25 1 = Ok c /\
    cr_margin_percentage c = checker_margin 25 (cost_price brand_3) /\
    (is_nppa_controlled brand_3 = false -> cr_is_compliant c = true) /\
    (is_nppa_controlled brand_3 = true ->
       (forall l, nppa_margin_limit brand_3 = Some l -> ~ l == 0 ->
          (cr_is_compliant c = true <-> cr_margin_percentage c <= l) /\
          (cr_is_compliant c = false ->
             cr_message c = MsgExceeds (cr_margin_percentage c) l)) /\
       ((nppa_margin_limit brand_3 = None \/
         exists l, nppa_margin_limit brand_3 = Some l /\ l == 0) ->
          cr_is_compliant c = true /\ cr_message c = MsgNoLimitSet)).
Proof.
  split; [reflexivity|].
  apply (check_nppa_compliance_verdict catalogue 3 25 1 brand_3).
  reflexivity.
Defined.

(** C10: a brand that is NPPA-controlled with its limit stored as 0 is
    reported compliant by both [calculate_price] and
    [check_nppa_compliance], whatever the realized or proposed margin. *)
Theorem zero_nppa_limit_treated_as_absent t today user bid ctid quantity price b l :
  find_active_brand t user bid = Some b ->
  is_nppa_controlled b = true ->
  nppa_margin_limit b = Some l -> l == 0 ->
  (exists r, calculate_price t today user bid ctid quantity = Ok r /\
             pr_nppa_compliant r = true /\ pr_nppa_message r = MsgCompliant) /\
  (exists c, check_nppa_compliance t bid price user = Ok c /\
             cr_is_compliant c = true /\ cr_message c = MsgNoLimitSet).
Proof.
  intros Hb En El Z. split.
  - destruct (calculate_price_found t today user bid ctid quantity b Hb)
      as (sp & vd & ->).
    eexists. split; [reflexivity|]. unfold finish_price. cbv zeta.
    rewrite En, El. simpl. rewrite (truthy_zero l Z). simpl. split; reflexivity.
  - unfold check_nppa_compliance. rewrite Hb, En, El. simpl.
    rewrite (truthy_zero l Z). simpl.
    eexists. split; [reflexivity|]. split; reflexivity.
Qed.

Lemma zero_nppa_limit_treated_as_absent_witness :
  find_active_brand catalogue 1 2 = Some brand_2 /\
  is_nppa_controlled brand_2 = true /\ nppa_margin_limit brand_2 = Some 0 /\
  0 == 0 /\
  (exists r, calculate_price catalogue 0 1 2 None 10 = Ok r /\
             pr_nppa_compliant r = true /\ pr_nppa_message r = MsgCompliant) /\
  (exists c, check_nppa_compliance catalogue 2 25 1 = Ok c /\
             cr_is_compliant c = true /\ cr_message c = MsgNoLimitSet).
Proof.
  split; [reflexivity|]. split; [reflexivity|]. split; [reflexivity|].
  split; [reflexivity|].
  apply (zero_nppa_limit_treated_as_absent catalogue 0 1 2 None 10 25 brand_2 0);
    reflexivity.
Defined.

(** ** Claims on the quote service *)

(** C3 (failing input): owner 1 creates a quote with one valid line on
    brand 1 and the storage rejects the line-item [INSERT].  The call fails
    with "Failed to create quote", yet the quote row is committed: the
    [db.commit()] after the quote [INSERT] comes before the line items, so
    the [db.rollback()] of the handler only drops the line items. *)
Theorem create_quote_failure_leaves_quote_row :
  exists s',
    create_quote line_insert_fails "QT-1-20261015-AB12CD" 1 "ABC Hospital" None
      [priced_item] (fresh catalogue) =
      (Err (Exception "Failed to create quote"), s') /\
    quotes (committed s') =
      [mkQuote 1 1 "QT-1-20261015-AB12CD" "ABC Hospital" None Draft
         (20 * (1 - 10 / 100) * 3) (((20 * (1 - 10 / 100)) - 30) * 3)] /\
    quote_line_items (committed s') = [].
Proof.
  eexists. split; [reflexivity|]. split; reflexivity.
Qed.

(** C6 (failing input): a line on brand 1 (cost 30, MRP 35) with
    [margin_percentage = 0], no [unit_price] and no discount.  The caller
    supplied a margin, so the claim prices it at 30 x (1 + 0/100) = 30
    capped at 35; [create_quote] tests [item.get("margin_percentage")] for
    truthiness, takes 0 as absent and stores the MRP, 35. *)
Theorem create_quote_zero_margin_priced_at_mrp :
  li_margin_percentage zero_margin_item = Some 0 /\
  li_unit_price zero_margin_item = None /\
  py_min (cost_price brand_1 * (1 + 0 / 100)) (mrp brand_1) == 30 /\
  base_unit_price brand_1 zero_margin_item = 35 /\
  exists v s',
    create_quote no_fault "QT-1-20261015-AB12CD" 1 "ABC Hospital" None
      [zero_margin_item] (fresh catalogue) = (Ok v, s') /\
    map l_unit_price (qv_line_items v) = [35].
Proof.
  split; [reflexivity|]. split; [reflexivity|].
  split; [vm_compute; reflexivity|]. split; [reflexivity|].
  do 2 eexists. split; reflexivity.
Qed.

(** C9: when owner [user] has no quote [qid], [update_quote_status] runs
    its [UPDATE] (no row matches), commits, and the "Quote not found"
    [ValueError] of [get_quote] falls into the handler's
    [except Exception]: the call fails with the opaque "Failed to update
    quote" instead of a not-found error.  No row changes. *)
Theorem update_quote_status_missing_quote_is_opaque fault t user qid status :
  find (quote_key qid user) (quotes t) = None ->
  update_quote_status fault user qid status (fresh t) =
    (Err (Exception "Failed to update quote"), fresh t).
Proof.
  intro Hnone.
  assert (Hmap : map (fun q => if quote_key qid user q then set_status status q else q)
                   (quotes t) = quotes t).
  { induction (quotes t) as [|q qs IH]; [reflexivity|].
    simpl in Hnone |- *. destruct (quote_key qid user q); [discriminate|].
    rewrite (IH Hnone). reflexivity. }
  unfold update_quote_status, try_catch, bind, db_execute.
  destruct (fault (UpdateStatus qid user status)); [reflexivity|].
  simpl. rewrite Hmap.
  replace (with_quotes t (quotes t) (next_quote_id t)) with t
    by (destruct t; reflexivity).
  unfold get_quote, try_catch, bind, query. simpl. rewrite Hnone.
  reflexivity.
Qed.

Lemma update_quote_status_missing_quote_is_opaque_witness :
  find (quote_key 9 1) (quotes quote_book) = None /\
  update_quote_status no_fault 1 9 Sent (fresh quote_book) =
    (Err (Exception "Failed to update quote"), fresh quote_book).
Proof.
  split; [reflexivity|].
  apply update_quote_status_missing_quote_is_opaque. reflexivity.
Defined.

Lemma find_after_delete_quote qid user qs :
  find (quote_key qid user) (filter (fun q => negb (quote_key qid user q)) qs) = None.
Proof.
  induction qs as [|q qs IH]; [reflexivity|]. simpl.
  destruct (quote_key qid user q) eqn:E; simpl; [exact IH|]. rewrite E. exact IH.
Qed.

Lemma lines_after_delete_lines qid ls :
  filter (fun l => Nat.eqb (l_quote l) qid)
    (filter (fun l => negb (Nat.eqb (l_quote l) qid)) ls) = [].
Proof.
  induction ls as [|l ls IH]; [reflexivity|]. simpl.
  destruct (Nat.eqb (l_quote l) qid) eqn:E; simpl; [exact IH|]. rewrite E. exact IH.
Qed.

(** C8: for a quote [qid] of owner [user], [delete_quote] on a draft
    succeeds on storage that accepts the statements, and the committed
    tables lose the quote and every line item of the quote; on any storage
    the call either does that or fails with nothing changed (one commit
    after both [DELETE]s, rollback on failure); for any other status it
    fails with "Can only delete draft quotes" and changes nothing. *)
Theorem delete_quote_draft_cascade t user qid q :
  find (quote_key qid user) (quotes t) = Some q ->
  (q_status q = Draft ->
     delete_quote no_fault user qid (fresh t) =
       (Ok true, fresh (delete_cascade qid user t)) /\
     find (quote_key qid user) (quotes (delete_cascade qid user t)) = None /\
     lines_of (delete_cascade qid user t) qid = [] /\
     (forall fault,
        delete_quote fault user qid (fresh t) =
          (Ok true, fresh (delete_cascade qid user t)) \/
        delete_quote fault user qid (fresh t) =
          (Err (Exception "Failed to delete quote"), fresh t))) /\
  (q_status q <> Draft ->
     forall fault,
       delete_quote fault user qid (fresh t) =
         (Err (ValueError OnlyDraftDeletable), fresh t)).
Proof.
  intro Hq. split.
  - intro Hd.
    assert (Hrun : forall fault,
               delete_quote fault user qid (fresh t) =
                 (Ok true, fresh (delete_cascade qid user t)) \/
               delete_quote fault user qid (fresh t) =
                 (Err (Exception "Failed to delete quote"), fresh t)).
    { intro fault. unfold delete_quote, try_catch, bind, query. simpl.
      rewrite Hq. simpl. rewrite Hd. simpl. unfold db_execute.
      destruct (fault (DeleteLines qid)); [right; reflexivity|]. simpl.
      destruct (fault (DeleteQuote qid user)); [right; reflexivity|].
      left. reflexivity. }
    split; [|split; [|split]].
    + destruct (Hrun no_fault) as [H|H]; [exact H|].
      revert H. unfold delete_quote, try_catch, bind, query. simpl.
      rewrite Hq. simpl. rewrite Hd. discriminate.
    + apply find_after_delete_quote.
    + apply lines_after_delete_lines.
    + exact Hrun.
  - intros Hd fault. unfold delete_quote, try_catch, bind, query. simpl.
    rewrite Hq. simpl.
    destruct (q_status q); try reflexivity. exfalso. exact (Hd eq_refl).
Qed.

Lemma delete_quote_draft_cascade_witness :
  find (quote_key 2 1) (quotes quote_book) = Some draft_quote /\
  (q_status draft_quote = Draft ->
     delete_quote no_fault 1 2 (fresh quote_book) =
       (Ok true, fresh (delete_cascade 2 1 quote_book)) /\
     find (quote_key 2 1) (quotes (delete_cascade 2 1 quote_book)) = None /\
     lines_of (delete_cascade 2 1 quote_book) 2 = [] /\
     (forall fault,
        delete_quote fault 1 2 (fresh quote_book) =
          (Ok true, fresh (delete_cascade 2 1 quote_book)) \/
        delete_quote fault 1 2 (fresh quote_book) =
          (Err (Exception "Failed to delete quote"), fresh quote_book))) /\
  (q_status draft_quote <> Draft ->
     forall fault,
       delete_quote fault 1 2 (fresh quote_book) =
         (Err (ValueError OnlyDraftDeletable), fresh quote_book)).
Proof.
  split; [reflexivity|].
  apply (delete_quote_draft_cascade quote_book 1 2 draft_quote). reflexivity.
Defined.

(** C5 (counterexample): the random quote number is not checked for
    uniqueness, and the new quote's id is read back by
    [SELECT id FROM quotes WHERE quote_number = ...].  When the number drawn
    is that of owner 1's existing quote 1, the line item is attached to
    quote 1 and [create_quote] returns quote 1 with two line items although
    one was requested; the new row (quote 3) has none. *)
Lemma create_quote_number_collision_counterexample :
  exists v s',
    create_quote no_fault "QT-1-20261014-AB12CD" 1 "ABC Hospital" None
      [priced_item] (fresh quote_book) = (Ok v, s') /\
    qv_id v = 1%nat /\ qv_total_items v = 2%nat /\
    List.length [priced_item] = 1%nat /\
    lines_of (committed s') 3 = [].
Proof.
  do 2 eexists. split; [reflexivity|]. repeat split.
Qed.

(** ** Running the quote service *)

Lemma bind_ok {A B} (m : M A) (f : A -> M B) s b s' :
  bind m f s = (Ok b, s') ->
  exists a s1, m s = (Ok a, s1) /\ f a s1 = (Ok b, s').
Proof.
  unfold bind. destruct (m s) as [[a|e] s1]; [eauto | discriminate].
Qed.

Lemma try_catch_ok {A} (body : M A) h s a s' :
  (forall e s0, exists e' s1, h e s0 = (Err e', s1)) ->
  try_catch body h s = (Ok a, s') -> body s = (Ok a, s').
Proof.
  intros Hh. unfold try_catch. destruct (body s) as [[b|e] s1]; [auto|].
  destruct (Hh e s1) as (e' & s2 & ->). discriminate.
Qed.

Lemma process_item_state user item s r s' :
  process_item user item s = (r, s') -> s' = s.
Proof.
  unfold process_item, bind, query, raise, ret.
  destruct (find_active_brand (work s) user (li_brand item));
    [destruct (li_discount item)|]; intro H; injection H; auto.
Qed.

Lemma process_items_ok user items : forall ta tm acc s res s',
  process_items user items ta tm acc s = (Ok res, s') ->
  s' = s /\
  exists ps, res = (fold_left (fun a p => a + p_line_total p) ps ta,
                    fold_left (fun a p => a + p_margin_earned p) ps tm,
                    acc ++ ps) /\
             List.length ps = List.length items.
Proof.
  induction items as [|item rest IH]; intros ta tm acc s res s' H.
  - injection H as <- <-. split; [reflexivity|].
    exists []. rewrite app_nil_r. split; reflexivity.
  - apply bind_ok in H as (p & s1 & Hp & Hr).
    apply process_item_state in Hp as Hs1. subst s1.
    destruct (IH _ _ _ _ _ _ Hr) as (-> & ps & -> & Hlen).
    split; [reflexivity|]. exists (p :: ps).
    rewrite <- app_assoc. simpl. split; [reflexivity | now rewrite Hlen].
Qed.

Lemma insert_lines_ok fault qid ps : forall s s',
  insert_lines fault qid ps s = (Ok tt, s') ->
  committed s' = committed s /\
  work s' = with_lines (work s)
              (quote_line_items (work s) ++
               line_rows qid (next_line_id (work s)) ps)
              (next_line_id (work s) + List.length ps).
Proof.
  induction ps as [|p rest IH]; intros s s' H.
  - injection H as <-. split; [reflexivity|].
    rewrite app_nil_r, Nat.add_0_r. destruct (work s); reflexivity.
  - simpl in H. apply bind_ok in H as (u & s1 & Hx & Hr).
    unfold db_execute in Hx.
    destruct (fault _); [discriminate|]. injection Hx as _ <-.
    destruct (IH _ _ Hr) as (Hc & Hw). split; [exact Hc|].
    rewrite Hw. simpl. rewrite <- app_assoc. simpl.
    replace (S (next_line_id (work s) + List.length rest))%nat
      with (next_line_id (work s) + S (List.length rest))%nat by lia.
    reflexivity.
Qed.

Lemma sums_line_rows qid ps : forall n ta tm,
  fold_left (fun acc l => acc + l_line_total l) (line_rows qid n ps) ta =
    fold_left (fun a p => a + p_line_total p) ps ta /\
  fold_left (fun acc l => acc + l_margin_earned l) (line_rows qid n ps) tm =
    fold_left (fun a p => a + p_margin_earned p) ps tm.
Proof.
  induction ps as [|p rest IH]; intros n ta tm; [split; reflexivity|].
  simpl. apply IH.
Qed.

Lemma line_rows_length qid n ps : List.length (line_rows qid n ps) = List.length ps.
Proof.
  revert n. induction ps as [|p rest IH]; intro n; [reflexivity|].
  simpl. now rewrite IH.
Qed.

Lemma line_rows_quote qid n ps :
  filter (fun l => Nat.eqb (l_quote l) qid) (line_rows qid n ps) = line_rows qid n ps.
Proof.
  revert n. induction ps as [|p rest IH]; intro n; [reflexivity|].
  simpl. rewrite Nat.eqb_refl. now rewrite IH.
Qed.

Lemma filter_old_lines qid ls :
  Forall (fun l => (l_quote l < qid)%nat) ls ->
  filter (fun l => Nat.eqb (l_quote l) qid) ls = [].
Proof.
  induction 1 as [|l ls Hl _ IH]; [reflexivity|]. simpl.
  destruct (Nat.eqb_spec (l_quote l) qid); [lia | exact IH].
Qed.

Lemma find_new_quote qid user qs q :
  Forall (fun q => (q_id q < qid)%nat) qs ->
  quote_key qid user q = true ->
  find (quote_key qid user) (qs ++ [q]) = Some q.
Proof.
  intros Hall Hq. induction Hall as [|q' qs Hq' _ IH]; simpl.
  - rewrite Hq. reflexivity.
  - unfold quote_key at 1. destruct (Nat.eqb_spec (q_id q') qid); [lia|].
    simpl. exact IH.
Qed.

Lemma find_number_new qs q number :
  find (fun q => String.eqb (q_number q) number) qs = None ->
  q_number q = number ->
  find (fun q => String.eqb (q_number q) number) (qs ++ [q]) = Some q.
Proof.
  induction qs as [|q' qs IH]; simpl; intros Hn Hq.
  - rewrite Hq, String.eqb_refl. reflexivity.
  - destruct (String.eqb (q_number q') number); [discriminate|]. auto.
Qed.

Lemma create_quote_handler_raises :
  forall e s0, exists e' s1,
    (fun e : exn => match e with
                    | ValueError m => raise (ValueError m)
                    | Exception _ => rollback ;; raise (Exception "Failed to create quote")
                    end : M quote_view) e s0 = (Err e', s1).
Proof. intros [m|m] s0; unfold bind, rollback, raise; eauto. Qed.

Lemma get_quote_handler_raises :
  forall e s0, exists e' s1,
    (fun e : exn => match e with
                    | ValueError m => raise (ValueError m)
                    | Exception _ => raise (Exception "Failed to get quote")
                    end : M quote_view) e s0 = (Err e', s1).
Proof. intros [m|m] s0; unfold raise; eauto. Qed.

(** C5 (amended): on a store whose quote ids and line items' quote ids are
    below the quote sequence, a successful [create_quote] whose drawn quote
    number is not yet stored returns the new quote with exactly N line
    items for N requests, [total_items = N], [total_amount] the sum of the
    stored [line_total]s and [total_margin] the sum of their
    [margin_earned]s; the same quote row and line items are committed. *)
Theorem create_quote_totals fault qn user name ctid items t v s' :
  quote_id_by_number t qn = None ->
  Forall (fun q => (q_id q < next_quote_id t)%nat) (quotes t) ->
  Forall (fun l => (l_quote l < next_quote_id t)%nat) (quote_line_items t) ->
  create_quote fault qn user name ctid items (fresh t) = (Ok v, s') ->
  qv_total_items v = List.length items /\
  List.length (qv_line_items v) = List.length items /\
  qv_total_amount v = sum_line_totals (qv_line_items v) /\
  qv_total_margin v = sum_margin_earned (qv_line_items v) /\
  lines_of (committed s') (qv_id v) = qv_line_items v /\
  find (quote_key (qv_id v) user) (quotes (committed s')) =
    Some (mkQuote (qv_id v) user qn name ctid Draft (qv_total_amount v)
            (qv_total_margin v)).
Proof.
  intros Hfresh Hq Hl H.
  unfold create_quote in H.
  apply try_catch_ok in H; [|exact create_quote_handler_raises].
  apply bind_ok in H as (totals & s1 & Hp & H).
  destruct (process_items_ok _ _ _ _ _ _ _ _ Hp) as (-> & ps & -> & Hlen).
  cbv beta iota in H. simpl app in H.
  apply bind_ok in H as (u1 & s2 & Hins & H).
  unfold db_execute in Hins. destruct (fault _); [discriminate|].
  injection Hins as _ <-.
  apply bind_ok in H as (u2 & s3 & Hc & H). unfold commit in Hc.
  injection Hc as _ <-.
  apply bind_ok in H as (qid & s4 & Hqq & H). unfold query in Hqq.
  injection Hqq as <- <-.
  set (TA := fold_left (fun a p => a + p_line_total p) ps 0) in *.
  set (TM := fold_left (fun a p => a + p_margin_earned p) ps 0) in *.
  set (newq := mkQuote (next_quote_id t) user qn name ctid Draft TA TM) in *.
  set (t1 := with_quotes t (quotes t ++ [newq]) (S (next_quote_id t))) in *.
  assert (Hid : quote_id_by_number t1 qn = Some (next_quote_id t)).
  { unfold quote_id_by_number in *. subst t1. simpl.
    destruct (find _ (quotes t)) eqn:E; [discriminate|].
    rewrite (find_number_new _ newq qn E eq_refl). reflexivity. }
  rewrite Hid in H.
  apply bind_ok in H as (u3 & s5 & Hlines & H).
  destruct u3. apply insert_lines_ok in Hlines as (Hc5 & Hw5). simpl in Hc5, Hw5.
  apply bind_ok in H as (u4 & s6 & Hc & H). unfold commit in Hc.
  injection Hc as _ <-.
  unfold get_quote in H.
  apply try_catch_ok in H; [|exact get_quote_handler_raises].
  apply bind_ok in H as (q & s7 & Hq7 & H). unfold query in Hq7.
  injection Hq7 as <- <-.
  set (rows := line_rows (next_quote_id t) (next_line_id t) ps) in *.
  set (t2 := with_lines t1 (quote_line_items t ++ rows)
               (next_line_id t + List.length ps)) in *.
  rewrite Hw5 in H.
  assert (Hfind : find (quote_key (next_quote_id t) user) (quotes t2) = Some newq).
  { subst t2 t1. simpl. apply find_new_quote; [exact Hq|].
    unfold quote_key, newq. simpl. rewrite !Nat.eqb_refl. reflexivity. }
  assert (Hlines : lines_of t2 (next_quote_id t) = rows).
  { unfold lines_of. subst t2. simpl.
    rewrite filter_app, (filter_old_lines _ _ Hl). apply line_rows_quote. }
  rewrite Hfind in H. unfold bind, query, ret in H. simpl work in H. rewrite Hlines in H.
  injection H as <- <-. simpl.
  assert (Hrows : List.length rows = List.length items)
    by (subst rows; rewrite line_rows_length; exact Hlen).
  destruct (sums_line_rows (next_quote_id t) ps (next_line_id t) 0 0) as (Hs1 & Hs2).
  unfold sum_line_totals, sum_margin_earned. fold rows in Hs1, Hs2.
  rewrite Hs1, Hs2, Hrows.
  repeat split; [exact Hlines | exact Hfind].
Qed.

Lemma create_quote_totals_witness :
  exists v s',
    quote_id_by_number catalogue "QT-1-20261015-AB12CD" = None /\
    Forall (fun q => (q_id q < next_quote_id catalogue)%nat) (quotes catalogue) /\
    Forall (fun l => (l_quote l < next_quote_id catalogue)%nat)
      (quote_line_items catalogue) /\
    create_quote no_fault "QT-1-20261015-AB12CD" 1 "ABC Hospital" None
      [priced_item; zero_margin_item] (fresh catalogue) = (Ok v, s') /\
    (qv_total_items v = List.length [priced_item; zero_margin_item] /\
     List.length (qv_line_items v) = List.length [priced_item; zero_margin_item] /\
     qv_total_amount v = sum_line_totals (qv_line_items v) /\
     qv_total_margin v = sum_margin_earned (qv_line_items v) /\
     lines_of (committed s') (qv_id v) = qv_line_items v /\
     find (quote_key (qv_id v) 1) (quotes (committed s')) =
       Some (mkQuote (qv_id v) 1 "QT-1-20261015-AB12CD" "ABC Hospital" None Draft
               (qv_total_amount v) (qv_total_margin v))).
Proof.
  do 2 eexists.
  split; [reflexivity|]. split; [constructor|]. split; [constructor|].
  split; [reflexivity|].
  apply (create_quote_totals no_fault "QT-1-20261015-AB12CD" 1 "ABC Hospital" None
           [priced_item; zero_margin_item] catalogue);
    [reflexivity | constructor | constructor | reflexivity].
Defined.

(** ** Further properties of the pricing engine *)

Lemma finish_price_discount bid quantity b sp vd :
  pr_volume_discount (finish_price bid quantity b sp vd) = vd.
Proof.
  unfold finish_price. cbv zeta.
  destruct (is_nppa_controlled b && truthy_opt (nppa_margin_limit b)); simpl;
    [destruct (nppa_margin_limit b) as [lim|]; simpl;
     [destruct (Qltb lim _)|] |]; reflexivity.
Qed.

Lemma base_pricing_rule t today user bid c quantity cost r :
  c <> 0%nat -> find_rule t today user bid c = Some r ->
  base_pricing t today user bid (Some c) quantity cost = rule_pricing cost quantity r.
Proof.
  intros Hc Hr. unfold base_pricing, truthy_nat.
  destruct (Nat.eqb_spec c 0); [contradiction|]. simpl. rewrite Hr. reflexivity.
Qed.

Lemma calculate_price_rule t today user bid c quantity b r :
  find_active_brand t user bid = Some b -> c <> 0%nat ->
  find_rule t today user bid c = Some r ->
  calculate_price t today user bid (Some c) quantity =
    Ok (finish_price bid quantity b (fst (rule_pricing (cost_price b) quantity r))
          (snd (rule_pricing (cost_price b) quantity r))).
Proof.
  intros Hb Hc Hr. unfold calculate_price. rewrite Hb.
  rewrite (base_pricing_rule t today user bid c quantity (cost_price b) r Hc Hr).
  destruct (rule_pricing (cost_price b) quantity r); reflexivity.
Qed.

(** X1: when a pricing rule matches, its volume discount applies exactly
    on its quantity tier: for [min_quantity <= quantity <= max_quantity]
    when both bounds are set (non-zero), for [quantity >= min_quantity]
    when only the minimum is set, and never when the minimum is unset or
    zero, whatever the maximum. *)
Theorem calculate_price_volume_tiers t today user bid c quantity b r :
  find_active_brand t user bid = Some b -> c <> 0%nat ->
  find_rule t today user bid c = Some r ->
  exists res, calculate_price t today user bid (Some c) quantity = Ok res /\
    (forall lo hi, r_min_quantity r = Some lo -> r_max_quantity r = Some hi ->
       lo <> 0%nat -> hi <> 0%nat ->
       pr_volume_discount res =
         if Nat.leb lo quantity && Nat.leb quantity hi
         then or0 (r_volume_discount r) else 0) /\
    (forall lo, r_min_quantity r = Some lo -> lo <> 0%nat ->
       (r_max_quantity r = None \/ r_max_quantity r = Some 0%nat) ->
       pr_volume_discount res =
         if Nat.leb lo quantity then or0 (r_volume_discount r) else 0) /\
    (r_min_quantity r = None \/ r_min_quantity r = Some 0%nat ->
       pr_volume_discount res = 0).
Proof.
  intros Hb Hc Hr. eexists. split.
  { exact (calculate_price_rule t today user bid c quantity b r Hb Hc Hr). }
  rewrite finish_price_discount. unfold rule_pricing, truthy_nat. simpl.
  split; [|split].
  - intros lo hi Hlo Hhi Hlo0 Hhi0. rewrite Hlo, Hhi.
    destruct (Nat.eqb_spec lo 0); [contradiction|].
    destruct (Nat.eqb_spec hi 0); [contradiction|]. reflexivity.
  - intros lo Hlo Hlo0 Hhi. rewrite Hlo.
    destruct (Nat.eqb_spec lo 0); [contradiction|].
    destruct Hhi as [-> | ->]; reflexivity.
  - intros [-> | ->]; simpl;
      destruct (r_max_quantity r) as [[|hi]|]; reflexivity.
Qed.

Lemma calculate_price_volume_tiers_witness :
  let r := mkRule 1 1 (Some 1%nat) None (Some 32) (Some 5) (Some 10%nat)
             (Some 50%nat) true None None in
  let t := with_rules catalogue (customer_types catalogue) [r] in
  (find_active_brand t 1 1 = Some brand_1 /\ 1%nat <> 0%nat /\
   find_rule t 0 1 1 1 = Some r) /\
  exists res, calculate_price t 0 1 1 (Some 1%nat) 20 = Ok res /\
    (forall lo hi, r_min_quantity r = Some lo -> r_max_quantity r = Some hi ->
       lo <> 0%nat -> hi <> 0%nat ->
       pr_volume_discount res =
         if Nat.leb lo 20 && Nat.leb 20 hi then or0 (r_volume_discount r) else 0) /\
    (forall lo, r_min_quantity r = Some lo -> lo <> 0%nat ->
       (r_max_quantity r = None \/ r_max_quantity r = Some 0%nat) ->
       pr_volume_discount res =
         if Nat.leb lo 20 then or0 (r_volume_discount r) else 0) /\
    (r_min_quantity r = None \/ r_min_quantity r = Some 0%nat ->
       pr_volume_discount res = 0).
Proof.
  intros r t. split; [split; [reflexivity | split; [discriminate | reflexivity]]|].
  apply (calculate_price_volume_tiers t 0 1 1 1 20 brand_1 r);
    [reflexivity | discriminate | reflexivity].
Defined.

(** X2: when a pricing rule matches, the base price is the rule's explicit
    sell price if it is set and non-zero, and otherwise
    [cost_price * (1 + margin/100)] with the rule's margin (NULL or 0 taken
    as 0); the unit price is that base after the volume discount, capped
    at MRP. *)
Theorem calculate_price_rule_base t today user bid c quantity b r :
  find_active_brand t user bid = Some b -> c <> 0%nat ->
  find_rule t today user bid c = Some r ->
  exists res, calculate_price t today user bid (Some c) quantity = Ok res /\
    let base := match r_sell_price r with
                | Some p => if truthy p then p
                            else cost_price b * (1 + or0 (r_margin_percentage r) / 100)
                | None => cost_price b * (1 + or0 (r_margin_percentage r) / 100)
                end in
    let vd := pr_volume_discount res in
    pr_unit_price res =
      py_min (if Qltb 0 vd then base * (1 - vd / 100) else base) (mrp b).
Proof.
  intros Hb Hc Hr. eexists. split.
  { exact (calculate_price_rule t today user bid c quantity b r Hb Hc Hr). }
  cbv zeta. rewrite finish_price_discount.
  rewrite (proj1 (finish_price_fields bid quantity b _ _)).
  unfold rule_pricing at 1. cbv zeta. simpl fst. unfold truthy_opt.
  destruct (r_sell_price r) as [p|]; [destruct (truthy p)|]; reflexivity.
Qed.

Lemma calculate_price_rule_base_witness :
  let r := mkRule 1 1 (Some 1%nat) (Some 50) (Some 32) None None None true None None in
  let t := with_rules catalogue (customer_types catalogue) [r] in
  (find_active_brand t 1 1 = Some brand_1 /\ 1%nat <> 0%nat /\
   find_rule t 0 1 1 1 = Some r) /\
  exists res, calculate_price t 0 1 1 (Some 1%nat) 4 = Ok res /\
    let base := match r_sell_price r with
                | Some p => if truthy p then p
                            else cost_price brand_1 * (1 + or0 (r_margin_percentage r) / 100)
                | None => cost_price brand_1 * (1 + or0 (r_margin_percentage r) / 100)
                end in
    let vd := pr_volume_discount res in
    pr_unit_price res =
      py_min (if Qltb 0 vd then base * (1 - vd / 100) else base) (mrp brand_1).
Proof.
  intros r t. split; [split; [reflexivity | split; [discriminate | reflexivity]]|].
  apply (calculate_price_rule_base t 0 1 1 1 4 brand_1 r);
    [reflexivity | discriminate | reflexivity].
Defined.

Lemma find_filter_implied {A} (f g : A -> bool) (l : list A) :
  (forall x, f x = true -> g x = true) ->
  find f (filter g l) = find f l.
Proof.
  intro H. induction l as [|x l IH]; [reflexivity|]. simpl.
  destruct (g x) eqn:Eg; simpl.
  - destruct (f x); [reflexivity | exact IH].
  - destruct (f x) eqn:Ef; [rewrite (H x Ef) in Eg; discriminate | exact IH].
Qed.

(** X3: inactive pricing rules and rules outside their validity window
    never influence a price: deleting all of them from the store leaves
    every [calculate_price] result unchanged. *)
Theorem calculate_price_ignores_dead_rules t today user bid ctid quantity :
  calculate_price
    (with_rules t (customer_types t)
       (filter (fun r => r_is_active r && in_window today r) (pricing_rules t)))
    today user bid ctid quantity =
  calculate_price t today user bid ctid quantity.
Proof.
  assert (Hr : forall c,
             find_rule (with_rules t (customer_types t)
                (filter (fun r => r_is_active r && in_window today r)
                   (pricing_rules t))) today user bid c =
             find_rule t today user bid c).
  { intro c. unfold find_rule. simpl. apply find_filter_implied.
    intros r H. apply andb_true_iff in H as [H Hw].
    apply andb_true_iff in H as [_ Ha]. rewrite Ha, Hw. reflexivity. }
  unfold calculate_price, base_pricing, fallback_margin. simpl.
  destruct t; simpl in *. unfold find_active_brand, find_brand_margin,
    find_customer_type_margin in *. simpl in *.
  destruct ctid as [c|]; [rewrite Hr|]; reflexivity.
Qed.

(** X4: without a customer type ([None] or [0]) no pricing rule and no
    customer type is consulted: the price is the same for any contents of
    those two tables, with no volume discount, and the unit price is
    [min(cost_price * (1 + m/100), mrp)] for the brand's own default margin
    [m] (0 when NULL or 0). *)
Theorem calculate_price_without_customer_type t today user bid ctid quantity b :
  truthy_nat ctid = false -> find_active_brand t user bid = Some b ->
  (forall cts rs,
     calculate_price (with_rules t cts rs) today user bid ctid quantity =
     calculate_price t today user bid ctid quantity) /\
  exists res, calculate_price t today user bid ctid quantity = Ok res /\
    pr_volume_discount res = 0 /\
    pr_unit_price res =
      py_min (cost_price b *
                (1 + match find_brand_margin t user bid with
                     | Some bm => or0 bm
                     | None => 0
                     end / 100)) (mrp b).
Proof.
  intros Hct Hb. split.
  - intros cts rs. unfold calculate_price, base_pricing, fallback_margin.
    rewrite Hct. destruct t; reflexivity.
  - eexists. split.
    + unfold calculate_price. rewrite Hb. unfold base_pricing. rewrite Hct.
      reflexivity.
    + rewrite finish_price_discount.
      rewrite (proj1 (finish_price_fields bid quantity b _ _)). split; [reflexivity|].
      unfold fallback_margin. rewrite Hct.
      destruct (find_brand_margin t user bid) as [bm|]; [|reflexivity].
      unfold truthy_opt, or0. destruct bm as [v|]; [|reflexivity].
      destruct (truthy v); reflexivity.
Qed.

Lemma calculate_price_without_customer_type_witness :
  (truthy_nat None = false /\ find_active_brand catalogue 1 1 = Some brand_1) /\
  (forall cts rs,
     calculate_price (with_rules catalogue cts rs) 0 1 1 None 5 =
     calculate_price catalogue 0 1 1 None 5) /\
  exists res, calculate_price catalogue 0 1 1 None 5 = Ok res /\
    pr_volume_discount res = 0 /\
    pr_unit_price res =
      py_min (cost_price brand_1 *
                (1 + match find_brand_margin catalogue 1 1 with
                     | Some bm => or0 bm
                     | None => 0
                     end / 100)) (mrp brand_1).
Proof.
  split; [split; reflexivity|].
  apply (calculate_price_without_customer_type catalogue 0 1 1 None 5 brand_1);
    reflexivity.
Defined.

Lemma find_map {A B} (P : B -> bool) (Q' : A -> bool) (f : A -> B) (l : list A) :
  (forall x, P (f x) = Q' x) ->
  find P (map f l) = option_map f (find Q' l).
Proof.
  intro H. induction l as [|x l IH]; [reflexivity|]. simpl.
  rewrite H. destruct (Q' x); [reflexivity | exact IH].
Qed.

Lemma finish_price_economics bid quantity b b' sp vd :
  cost_price b' = cost_price b -> mrp b' = mrp b ->
  let r := finish_price bid quantity b sp vd in
  let r' := finish_price bid quantity b' sp vd in
  pr_unit_price r' = pr_unit_price r /\
  pr_margin_percentage r' = pr_margin_percentage r /\
  pr_total_amount r' = pr_total_amount r /\
  pr_total_margin r' = pr_total_margin r /\
  pr_volume_discount r' = pr_volume_discount r.
Proof.
  intros Hc Hm. unfold finish_price. cbv zeta. rewrite Hc, Hm.
  repeat match goal with
         | |- context [match ?X with (_, _) => _ end] =>
             let c := fresh "c" in let m := fresh "m" in destruct X as [c m]
         end.
  simpl. repeat split.
Qed.

(** X5: the NPPA columns of the brands never change a price: whatever NPPA
    flags and margin limits the brands carry, [calculate_price] gives the
    same unit price, realized margin, totals and volume discount, and fails
    the same way; the NPPA check only annotates the result. *)
Theorem calculate_price_nppa_advisory t today user bid ctid quantity
    (g : brand -> bool * option Q) :
  let t' := with_brands t (map (restamp_nppa g) (brands t)) in
  match calculate_price t today user bid ctid quantity,
        calculate_price t' today user bid ctid quantity with
  | Ok r, Ok r' =>
      pr_unit_price r' = pr_unit_price r /\
      pr_margin_percentage r' = pr_margin_percentage r /\
      pr_total_amount r' = pr_total_amount r /\
      pr_total_margin r' = pr_total_margin r /\
      pr_volume_discount r' = pr_volume_discount r
  | Err e, Err e' => e' = e
  | _, _ => False
  end.
Proof.
  intro t'.
  assert (Hb : find_active_brand t' user bid =
               option_map (restamp_nppa g) (find_active_brand t user bid)).
  { unfold find_active_brand. apply find_map. reflexivity. }
  assert (Hm : find_brand_margin t' user bid = find_brand_margin t user bid).
  { unfold find_brand_margin. simpl.
    rewrite (find_map _ (fun b => Nat.eqb (b_id b) bid && Nat.eqb (b_user b) user));
      [|reflexivity].
    destruct (find _ (brands t)); reflexivity. }
  assert (Hbase : forall cost, base_pricing t' today user bid ctid quantity cost =
                               base_pricing t today user bid ctid quantity cost).
  { intro cost. unfold base_pricing, fallback_margin. rewrite Hm. reflexivity. }
  unfold calculate_price. rewrite Hb.
  destruct (find_active_brand t user bid) as [b|]; simpl; [|reflexivity].
  rewrite Hbase. destruct (base_pricing t today user bid ctid quantity (cost_price b))
    as [sp vd].
  apply finish_price_economics; reflexivity.
Qed.

(** X6: when no pricing rule applies, the cost price is positive and
    [cost_price * (1 + m/100)] stays within MRP for the fallback margin
    [m], the realized margin [calculate_price] reports is [m] itself: the
    cap-then-recompute gives back the margin it priced with. *)
Theorem calculate_price_margin_round_trip t today user bid ctid quantity b :
  find_active_brand t user bid = Some b ->
  match ctid with Some c => find_rule t today user bid c = None | None => True end ->
  0 < cost_price b ->
  cost_price b * (1 + fallback_margin t user bid ctid / 100) <= mrp b ->
  exists res, calculate_price t today user bid ctid quantity = Ok res /\
    pr_margin_percentage res == fallback_margin t user bid ctid.
Proof.
  intros Hb Hr Hc Hle. eexists. split.
  { unfold calculate_price. rewrite Hb. unfold base_pricing.
    replace (if truthy_nat ctid then
               match ctid with Some c => find_rule t today user bid c | None => None end
             else None) with (@None pricing_rule)
      by (destruct ctid as [c|]; [rewrite Hr|]; destruct (truthy_nat _); reflexivity).
    reflexivity. }
  destruct (finish_price_fields bid quantity b
              (cost_price b * (1 + fallback_margin t user bid ctid / 100)) 0)
    as (Hp & _ & _ & Hmg & _).
  rewrite Hmg, Hp. replace (Qltb 0 0) with false by reflexivity.
  unfold py_min. destruct (Qltb (mrp b) _) eqn:E.
  { apply Qltb_true in E. exfalso. apply (Qlt_not_le _ _ E Hle). }
  unfold resolver_margin. destruct (Qltb 0 (cost_price b)) eqn:Ec.
  - field. intro Hz. rewrite Hz in Hc. discriminate.
  - apply Qltb_false in Ec. exfalso. apply (Qlt_not_le _ _ Hc Ec).
Qed.

Lemma calculate_price_margin_round_trip_witness :
  (find_active_brand catalogue 1 1 = Some brand_1 /\
   find_rule catalogue 0 1 1 1 = None /\ 0 < cost_price brand_1 /\
   cost_price brand_1 * (1 + fallback_margin catalogue 1 1 (Some 1%nat) / 100)
     <= mrp brand_1) /\
  exists res, calculate_price catalogue 0 1 1 (Some 1%nat) 5 = Ok res /\
    pr_margin_percentage res == fallback_margin catalogue 1 1 (Some 1%nat).
Proof.
  split; [split; [reflexivity | split; [reflexivity | split; vm_compute; congruence]]|].
  apply (calculate_price_margin_round_trip catalogue 0 1 1 (Some 1%nat) 5 brand_1);
    try reflexivity; vm_compute; congruence.
Defined.

Lemma find_active_brand_none t user bid :
  Forall (fun b => b_id b = bid -> b_user b <> user \/ is_active b = false) (brands t) ->
  find_active_brand t user bid = None.
Proof.
  unfold find_active_brand. induction 1 as [|b bs Hb _ IH]; [reflexivity|]. simpl.
  destruct (Nat.eqb_spec (b_id b) bid) as [E|]; simpl; [|exact IH].
  destruct (Hb E) as [Hu | Ha].
  - destruct (Nat.eqb_spec (b_user b) user); [contradiction | exact IH].
  - rewrite Ha, andb_false_r. exact IH.
Qed.

(** X7: pricing a brand id that, for the calling owner, has no active row
    (it is missing, inactive, or another owner's) answers HTTP 404 "Brand
    not found" on both [/pricing/calculate] and [/pricing/check-nppa];
    another owner's brand is never priced. *)
Theorem pricing_routes_foreign_brand t today user bid ctid quantity price :
  Forall (fun b => b_id b = bid -> b_user b <> user \/ is_active b = false) (brands t) ->
  calculate_price_route t today user bid ctid quantity = HttpError 404 "Brand not found" /\
  check_nppa_compliance_route t user bid price = HttpError 404 "Brand not found".
Proof.
  intro H. apply find_active_brand_none in H.
  unfold calculate_price_route, check_nppa_compliance_route, calculate_price,
    check_nppa_compliance. rewrite H. split; reflexivity.
Qed.

Lemma pricing_routes_foreign_brand_witness :
  Forall (fun b => b_id b = 1%nat -> b_user b <> 2%nat \/ is_active b = false)
    (brands catalogue) /\
  calculate_price_route catalogue 0 2 1 None 5 = HttpError 404 "Brand not found" /\
  check_nppa_compliance_route catalogue 2 1 30 = HttpError 404 "Brand not found".
Proof.
  assert (H : Forall (fun b => b_id b = 1%nat -> b_user b <> 2%nat \/ is_active b = false)
                (brands catalogue)).
  { apply Forall_forall. intros b Hin E. left.
    destruct Hin as [<-|[<-|[<-|[]]]]; simpl in *; congruence. }
  split; [exact H|]. apply (pricing_routes_foreign_brand catalogue 0 2 1 None 5 30 H).
Defined.

(** ** Further properties of the quote service and its routes *)

Lemma process_item_found user item s b d :
  find_active_brand (work s) user (li_brand item) = Some b ->
  li_discount item = Some d ->
  exists p, process_item user item s = (Ok p, s).
Proof.
  intros Hb Hd. unfold process_item, bind, query. simpl. rewrite Hb, Hd.
  eexists. reflexivity.
Qed.

Lemma process_items_skip user pre rest s :
  Forall (fun i => find_active_brand (work s) user (li_brand i) <> None /\
                   li_discount i <> None) pre ->
  forall ta tm acc, exists ta' tm' acc',
    process_items user (pre ++ rest) ta tm acc s =
    process_items user rest ta' tm' acc' s.
Proof.
  induction 1 as [|i pre [Hb Hd] _ IH]; intros ta tm acc.
  - exists ta, tm, acc. reflexivity.
  - destruct (find_active_brand (work s) user (li_brand i)) as [b|] eqn:Eb;
      [|contradiction].
    destruct (li_discount i) as [d|] eqn:Ed; [|contradiction].
    destruct (process_item_found user i s b d Eb Ed) as [p Hp].
    simpl. unfold bind at 1. rewrite Hp. apply IH.
Qed.



(** X9: a line item whose [discount] is an explicit null (after valid
    ones, on an active brand of the owner) makes [create_quote] fail on
    [None > 0]: the route answers HTTP 500 "Failed to create quote" and
    nothing is written. *)
Theorem create_quote_route_null_discount fault qn user name ctid pre item post t b :
  Forall (fun i => find_active_brand t user (li_brand i) <> None /\
                   li_discount i <> None) pre ->
  find_active_brand t user (li_brand item) = Some b ->
  li_discount item = None ->
  create_quote_route fault qn user name ctid (pre ++ item :: post) t =
    (HttpError 500 "Failed to create quote", t).
Proof.
  intros Hpre Hb Hd.
  destruct (process_items_skip user pre (item :: post) (fresh t) Hpre 0 0 [])
    as (ta & tm & acc & Hskip).
  unfold create_quote_route, run, create_quote, try_catch. unfold bind at 1.
  rewrite Hskip. simpl. unfold bind at 1, process_item, bind, query. simpl.
  rewrite Hb, Hd. reflexivity.
Qed.

Lemma create_quote_route_null_discount_witness :
  (Forall (fun i => find_active_brand catalogue 1 (li_brand i) <> None /\
                    li_discount i <> None) [] /\
   find_active_brand catalogue 1 (li_brand (mkReq 1 1 None None None)) = Some brand_1 /\
   li_discount (mkReq 1 1 None None None) = None) /\
  create_quote_route no_fault "QT-1-20261015-AB12CD" 1 "ABC Hospital" None
    ([] ++ mkReq 1 1 None None None :: [priced_item]) catalogue =
    (HttpError 500 "Failed to create quote", catalogue).
Proof.
  split; [split; [constructor | split; reflexivity]|].
  apply (create_quote_route_null_discount no_fault _ 1 _ None []
           (mkReq 1 1 None None None) [priced_item] catalogue brand_1);
    [constructor | reflexivity | reflexivity].
Defined.

Lemma py_min_le_l a b : py_min a b <= a.
Proof.
  unfold py_min. destruct (Qltb b a) eqn:E.
  - apply Qlt_le_weak. exact (Qltb_true _ _ E).
  - apply Qle_refl.
Qed.

Lemma py_min_nonneg a b : 0 <= a -> 0 <= b -> 0 <= py_min a b.
Proof. intros Ha Hb. unfold py_min. destruct (Qltb b a); assumption. Qed.

(** X10: a line item priced from a margin or from MRP (no non-zero
    [unit_price]) gets a stored unit price between 0 and the brand's MRP,
    when cost price, MRP and margin are non-negative and the discount is at
    most 100%, as the request and brand schemas require. *)
Theorem process_item_within_mrp user item s b p s' :
  find_active_brand (work s) user (li_brand item) = Some b ->
  truthy_opt (li_unit_price item) = false ->
  0 <= cost_price b -> 0 <= mrp b ->
  (forall m, li_margin_percentage item = Some m -> 0 <= m) ->
  (forall d, li_discount item = Some d -> d <= 100) ->
  process_item user item s = (Ok p, s') ->
  0 <= p_unit_price p <= mrp b.
Proof.
  intros Hb Hu Hc Hm Hm' Hd. unfold process_item, bind, query. simpl. rewrite Hb.
  destruct (li_discount item) as [d|] eqn:Ed; [|discriminate].
  intro H. injection H as <- _. simpl.
  assert (Hbase : 0 <= base_unit_price b item <= mrp b).
  { unfold base_unit_price. rewrite Hu.
    destruct (truthy_opt (li_margin_percentage item)) eqn:Et.
    - destruct (li_margin_percentage item) as [m|] eqn:Em; [|discriminate].
      specialize (Hm' m eq_refl). split; [|apply py_min_le_r].
      apply py_min_nonneg; [|exact Hm].
      apply Qmult_le_0_compat; [exact Hc|].
      assert (0 <= m / 100)
        by (apply Qle_shift_div_l; [reflexivity|]; rewrite Qmult_0_l; exact Hm').
      lra.
    - split; [exact Hm | apply Qle_refl]. }
  specialize (Hd d eq_refl). destruct Hbase as [H0 H1].
  destruct (Qltb 0 d) eqn:Ed0; [|split; assumption].
  apply Qltb_true in Ed0.
  assert (0 <= d / 100)
    by (apply Qle_shift_div_l; [reflexivity|]; rewrite Qmult_0_l; lra).
  assert (d / 100 <= 1)
    by (apply Qle_shift_div_r; [reflexivity|]; lra).
  split.
  - apply Qmult_le_0_compat; [exact H0|]. lra.
  - apply Qle_trans with (base_unit_price b item); [|exact H1].
    rewrite <- (Qmult_1_r (base_unit_price b item)) at 2.
    apply Qmult_le_compat_nonneg; split; [exact H0 | apply Qle_refl | lra | lra].
Qed.

Lemma process_item_within_mrp_witness :
  let item := mkReq 1 4 None (Some 20) (Some 5) in
  exists p s',
    (find_active_brand (work (fresh catalogue)) 1 (li_brand item) = Some brand_1 /\
     truthy_opt (li_unit_price item) = false /\
     0 <= cost_price brand_1 /\ 0 <= mrp brand_1 /\
     (forall m, li_margin_percentage item = Some m -> 0 <= m) /\
     (forall d, li_discount item = Some d -> d <= 100) /\
     process_item 1 item (fresh catalogue) = (Ok p, s')) /\
    0 <= p_unit_price p <= mrp brand_1.
Proof.
  intro item. eexists. exists (fresh catalogue).
  assert (Hm : forall m, li_margin_percentage item = Some m -> 0 <= m)
    by (intros m E; injection E as <-; vm_compute; congruence).
  assert (Hd : forall d, li_discount item = Some d -> d <= 100)
    by (intros d E; injection E as <-; vm_compute; congruence).
  assert (Hc : 0 <= cost_price brand_1) by (vm_compute; congruence).
  assert (Hp : 0 <= mrp brand_1) by (vm_compute; congruence).
  split.
  - split; [reflexivity | split; [reflexivity|]].
    split; [exact Hc | split; [exact Hp | split; [exact Hm | split; [exact Hd|]]]].
    reflexivity.
  - apply (process_item_within_mrp 1 item (fresh catalogue) brand_1 _ (fresh catalogue)
             eq_refl eq_refl Hc Hp Hm Hd). reflexivity.
Defined.

Lemma quote_key_set_status qid user st q :
  quote_key qid user (set_status st q) = quote_key qid user q.
Proof. reflexivity. Qed.

Lemma find_update_status qid user st qs :
  find (quote_key qid user)
    (map (fun q => if quote_key qid user q then set_status st q else q) qs) =
  option_map (set_status st) (find (quote_key qid user) qs).
Proof.
  induction qs as [|q qs IH]; [reflexivity|]. simpl.
  destruct (quote_key qid user q) eqn:E; simpl.
  - rewrite quote_key_set_status, E. reflexivity.
  - rewrite E. exact IH.
Qed.

Lemma update_status_absent qid user st qs :
  find (quote_key qid user) qs = None ->
  map (fun q => if quote_key qid user q then set_status st q else q) qs = qs.
Proof.
  induction qs as [|q qs IH]; [reflexivity|]. simpl. intro H.
  destruct (quote_key qid user q); [discriminate|]. rewrite (IH H). reflexivity.
Qed.

Lemma quote_key_found qid user qs q :
  find (quote_key qid user) qs = Some q -> q_id q = qid /\ q_user q = user.
Proof.
  intro H. apply find_some in H as [_ H]. unfold quote_key in H.
  apply andb_true_iff in H as [H1 H2].
  split; apply Nat.eqb_eq; assumption.
Qed.

(** X11: for an existing quote of the owner, [update_quote_status] on
    storage that accepts the [UPDATE] commits the new status and returns
    the quote with that status, its id, number and totals and its line
    items; line items and the other quotes are untouched.  If the storage
    rejects the [UPDATE], the call fails with "Failed to update quote" and
    nothing changes. *)
Theorem update_quote_status_existing fault t user qid st q :
  find (quote_key qid user) (quotes t) = Some q ->
  let t' := apply_stmt (UpdateStatus qid user st) t in
  (fault (UpdateStatus qid user st) = false ->
     update_quote_status fault user qid st (fresh t) =
       (Ok (mkView qid user (q_number q) st (q_total_amount q) (q_total_margin q)
              (List.length (lines_of t qid)) (lines_of t qid)), fresh t') /\
     quote_line_items t' = quote_line_items t /\
     (forall q', In q' (quotes t) -> quote_key qid user q' = false -> In q' (quotes t'))) /\
  (fault (UpdateStatus qid user st) = true ->
     update_quote_status fault user qid st (fresh t) =
       (Err (Exception "Failed to update quote"), fresh t)).
Proof.
  intros Hq t'. destruct (quote_key_found _ _ _ _ Hq) as [Hid _]. split.
  - intro Hf. split; [|split].
    + unfold update_quote_status, try_catch, bind, db_execute. rewrite Hf.
      simpl. unfold get_quote, try_catch, bind, query. simpl.
      rewrite find_update_status, Hq. simpl. rewrite Hid. reflexivity.
    + reflexivity.
    + intros q' Hin Hk. simpl. apply in_map_iff. exists q'. rewrite Hk. auto.
  - intro Hf. unfold update_quote_status, try_catch, bind, db_execute.
    rewrite Hf. reflexivity.
Qed.

Lemma update_quote_status_existing_witness :
  find (quote_key 1 1) (quotes quote_book) = Some sent_quote /\
  let t' := apply_stmt (UpdateStatus 1 1 Accepted) quote_book in
  (no_fault (UpdateStatus 1 1 Accepted) = false ->
     update_quote_status no_fault 1 1 Accepted (fresh quote_book) =
       (Ok (mkView 1 1 (q_number sent_quote) Accepted (q_total_amount sent_quote)
              (q_total_margin sent_quote) (List.length (lines_of quote_book 1))
              (lines_of quote_book 1)), fresh t') /\
     quote_line_items t' = quote_line_items quote_book /\
     (forall q', In q' (quotes quote_book) -> quote_key 1 1 q' = false ->
                 In q' (quotes t'))) /\
  (no_fault (UpdateStatus 1 1 Accepted) = true ->
     update_quote_status no_fault 1 1 Accepted (fresh quote_book) =
       (Err (Exception "Failed to update quote"), fresh quote_book)).
Proof.
  split; [reflexivity|].
  apply (update_quote_status_existing no_fault quote_book 1 1 Accepted sent_quote).
  reflexivity.
Defined.

Lemma delete_quote_found fault t user qid q :
  find (quote_key qid user) (quotes t) = Some q ->
  (q_status q = Draft ->
     delete_quote no_fault user qid (fresh t) =
       (Ok true, fresh (delete_cascade qid user t))) /\
  (q_status q <> Draft ->
     delete_quote fault user qid (fresh t) =
       (Err (ValueError OnlyDraftDeletable), fresh t)).
Proof.
  intro Hq. unfold delete_quote, try_catch, bind, query. simpl. rewrite Hq. simpl.
  split.
  - intro Hd. rewrite Hd. reflexivity.
  - intro Hd. destruct (q_status q); try reflexivity. contradiction.
Qed.

(** X12: status changes are unrestricted and decide deletability: after
    [update_quote_status] sets an existing quote to any status other than
    draft, [delete_quote] refuses it with "Can only delete draft quotes",
    and after it sets the quote back to draft (from any status, e.g. sent
    or accepted), [delete_quote] deletes it. *)
Theorem update_then_delete_quote t user qid st q :
  find (quote_key qid user) (quotes t) = Some q ->
  let t' := apply_stmt (UpdateStatus qid user st) t in
  update_quote_status no_fault user qid st (fresh t) =
    (Ok (mkView qid user (q_number q) st (q_total_amount q) (q_total_margin q)
           (List.length (lines_of t qid)) (lines_of t qid)), fresh t') /\
  (st <> Draft -> forall fault,
     delete_quote fault user qid (fresh t') =
       (Err (ValueError OnlyDraftDeletable), fresh t')) /\
  (st = Draft ->
     delete_quote no_fault user qid (fresh t') =
       (Ok true, fresh (delete_cascade qid user t'))).
Proof.
  intros Hq t'. destruct (quote_key_found _ _ _ _ Hq) as [Hid _].
  assert (Hq' : find (quote_key qid user) (quotes t') = Some (set_status st q))
    by (simpl; rewrite find_update_status, Hq; reflexivity).
  split; [|split].
  - unfold update_quote_status, try_catch, bind, db_execute. simpl.
    unfold get_quote, try_catch, bind, query. simpl.
    rewrite find_update_status, Hq. simpl. rewrite Hid. reflexivity.
  - intros Hd fault. apply (proj2 (delete_quote_found fault t' user qid _ Hq')).
    exact Hd.
  - intro Hd. apply (proj1 (delete_quote_found no_fault t' user qid _ Hq')).
    exact Hd.
Qed.

Lemma update_then_delete_quote_witness :
  find (quote_key 1 1) (quotes quote_book) = Some sent_quote /\
  let t' := apply_stmt (UpdateStatus 1 1 Draft) quote_book in
  update_quote_status no_fault 1 1 Draft (fresh quote_book) =
    (Ok (mkView 1 1 (q_number sent_quote) Draft (q_total_amount sent_quote)
           (q_total_margin sent_quote) (List.length (lines_of quote_book 1))
           (lines_of quote_book 1)), fresh t') /\
  (Draft <> Draft -> forall fault,
     delete_quote fault 1 1 (fresh t') =
       (Err (ValueError OnlyDraftDeletable), fresh t')) /\
  (Draft = Draft ->
     delete_quote no_fault 1 1 (fresh t') =
       (Ok true, fresh (delete_cascade 1 1 t'))).
Proof.
  split; [reflexivity|].
  apply (update_then_delete_quote quote_book 1 1 Draft sent_quote). reflexivity.
Defined.

(** X13: deleting a draft quote removes exactly that quote of the owner
    and exactly the line items of that quote: every other quote (also other
    owners') and every line item of another quote stays in the committed
    tables. *)
Theorem delete_quote_removes_only_target t user qid q :
  find (quote_key qid user) (quotes t) = Some q -> q_status q = Draft ->
  delete_quote no_fault user qid (fresh t) =
    (Ok true, fresh (delete_cascade qid user t)) /\
  (forall q', In q' (quotes (delete_cascade qid user t)) <->
              In q' (quotes t) /\ quote_key qid user q' = false) /\
  (forall l, In l (quote_line_items (delete_cascade qid user t)) <->
             In l (quote_line_items t) /\ l_quote l <> qid).
Proof.
  intros Hq Hd. split; [exact (proj1 (delete_quote_found no_fault t user qid q Hq) Hd)|].
  split.
  - intro q'. simpl. rewrite filter_In, negb_true_iff. reflexivity.
  - intro l. simpl. rewrite filter_In, negb_true_iff, Nat.eqb_neq. reflexivity.
Qed.

Lemma delete_quote_removes_only_target_witness :
  (find (quote_key 2 1) (quotes quote_book) = Some draft_quote /\
   q_status draft_quote = Draft) /\
  delete_quote no_fault 1 2 (fresh quote_book) =
    (Ok true, fresh (delete_cascade 2 1 quote_book)) /\
  (forall q', In q' (quotes (delete_cascade 2 1 quote_book)) <->
              In q' (quotes quote_book) /\ quote_key 2 1 q' = false) /\
  (forall l, In l (quote_line_items (delete_cascade 2 1 quote_book)) <->
             In l (quote_line_items quote_book) /\ l_quote l <> 2%nat).
Proof.
  split; [split; reflexivity|].
  apply (delete_quote_removes_only_target quote_book 1 2 draft_quote);
    reflexivity.
Defined.

(** X14: for a quote id the owner does not have (missing, or another
    owner's), the three routes answer differently: GET [/quotes/{id}]
    gives HTTP 404 "Quote not found", DELETE gives HTTP 400 "Quote not
    found", and PUT with a status gives HTTP 500 "Failed to update quote";
    none of them changes the database. *)
Theorem quote_routes_missing_quote fault t user qid st :
  find (quote_key qid user) (quotes t) = None ->
  get_quote_route user qid t = (HttpError 404 "Quote not found", t) /\
  delete_quote_route fault user qid t = (HttpError 400 "Quote not found", t) /\
  update_quote_route fault user qid (Some st) t =
    (HttpError 500 "Failed to update quote", t).
Proof.
  intro Hn. split; [|split].
  - unfold get_quote_route, run, get_quote, try_catch, bind, query. simpl.
    rewrite Hn. reflexivity.
  - unfold delete_quote_route, run, delete_quote, try_catch, bind, query. simpl.
    rewrite Hn. reflexivity.
  - unfold update_quote_route, run, update_quote_status, try_catch, bind, db_execute.
    destruct (fault (UpdateStatus qid user st)); [reflexivity|]. simpl.
    rewrite (update_status_absent qid user st (quotes t) Hn).
    replace (with_quotes t (quotes t) (next_quote_id t)) with t
      by (destruct t; reflexivity).
    unfold get_quote, try_catch, bind, query. simpl. rewrite Hn. reflexivity.
Qed.

Lemma quote_routes_missing_quote_witness :
  find (quote_key 2 7) (quotes quote_book) = None /\
  get_quote_route 7 2 quote_book = (HttpError 404 "Quote not found", quote_book) /\
  delete_quote_route no_fault 7 2 quote_book =
    (HttpError 400 "Quote not found", quote_book) /\
  update_quote_route no_fault 7 2 (Some Sent) quote_book =
    (HttpError 500 "Failed to update quote", quote_book).
Proof.
  split; [reflexivity|].
  apply (quote_routes_missing_quote no_fault quote_book 7 2 Sent). reflexivity.
Defined.

Lemma uint_text_delimited d d' r r' :
  (uint_text d ++ String "-"%char r = uint_text d' ++ String "-"%char r')%string -> d = d'.
Proof.
  revert d'. induction d as [|d IH|d IH|d IH|d IH|d IH|d IH|d IH|d IH|d IH|d IH];
    intros [|d'|d'|d'|d'|d'|d'|d'|d'|d'|d'] H; simpl in H;
    try reflexivity; inversion H; f_equal; apply IH; assumption.
Qed.

(** X15: quote numbers drawn for different owners never coincide, whatever
    the dates and random suffixes: the owner id sits between the first two
    dashes of [QT-{user_id}-{timestamp}-{random_suffix}] and its digits
    contain no dash.  So the [quote_number] lookup of [create_quote] can
    only collide with a quote of the same owner. *)
Theorem generate_quote_number_owner_distinct u1 u2 d1 d2 s1 s2 :
  u1 <> u2 ->
  generate_quote_number u1 d1 s1 <> generate_quote_number u2 d2 s2.
Proof.
  intros Hu H. apply Hu. unfold generate_quote_number in H. simpl in H.
  injection H as H. apply uint_text_delimited in H.
  exact (DecimalNat.Unsigned.to_uint_inj u1 u2 H).
Qed.

Lemma generate_quote_number_owner_distinct_witness :
  1%nat <> 12%nat /\
  generate_quote_number 1 "20261015" "AB12CD" <>
    generate_quote_number 12 "0261015" "AB12CD".
Proof.
  split; [discriminate|].
  apply generate_quote_number_owner_distinct. discriminate.
Defined.

(** ** Listing quotes *)

Lemma list_quotes_run order_by user status name sort_by limit offset t :
  let rows := filter (list_where user status name) (quotes t) in
  list_quotes order_by user status name sort_by limit offset (fresh t) =
    (Ok (mkPage (firstn limit (skipn offset (order_by (sort_clause_of sort_by) rows)))
           (List.length rows) limit offset
           (Nat.ltb (offset + limit) (List.length rows))), fresh t).
Proof. reflexivity. Qed.

Lemma in_firstn {A} n (l : list A) x : In x (firstn n l) -> In x l.
Proof. intro H. rewrite <- (firstn_skipn n l). apply in_or_app. left. exact H. Qed.

Lemma in_skipn {A} n (l : list A) x : In x (skipn n l) -> In x l.
Proof. intro H. rewrite <- (firstn_skipn n l). apply in_or_app. right. exact H. Qed.

(** X16: [list_quotes] only reads, its [total] counts the rows the
    [WHERE] clause selects, and every quote it returns is a stored quote of
    the calling owner, with the requested status when a non-empty status
    filter is given. *)
Theorem list_quotes_scoped order_by user status name sort_by limit offset t :
  (forall c l, Permutation (order_by c l) l) ->
  exists page,
    list_quotes order_by user status name sort_by limit offset (fresh t) =
      (Ok page, fresh t) /\
    qp_total page = List.length (filter (list_where user status name) (quotes t)) /\
    forall q, In q (qp_quotes page) ->
      In q (quotes t) /\ q_user q = user /\
      (forall st, status = Some st -> st <> ""%string -> status_text (q_status q) = st).
Proof.
  intro Hperm. eexists. split; [apply list_quotes_run|]. split; [reflexivity|].
  intros q Hin. simpl in Hin.
  apply in_firstn, in_skipn in Hin.
  apply (Permutation_in _ (Hperm _ _)) in Hin.
  apply filter_In in Hin as [Hq Hw]. split; [exact Hq|].
  unfold list_where in Hw. apply andb_true_iff in Hw as [Hw _].
  apply andb_true_iff in Hw as [Hu Hs]. split; [apply Nat.eqb_eq; exact Hu|].
  intros st -> Hne. apply String.eqb_neq in Hne. rewrite Hne in Hs.
  apply String.eqb_eq. exact Hs.
Qed.

Lemma list_quotes_scoped_witness :
  (forall c (l : list quote_row), Permutation (as_stored c l) l) /\
  exists page,
    list_quotes as_stored 1 (Some "sent"%string) None None 20 0 (fresh quote_book) =
      (Ok page, fresh quote_book) /\
    qp_total page =
      List.length (filter (list_where 1 (Some "sent"%string) None) (quotes quote_book)) /\
    forall q, In q (qp_quotes page) ->
      In q (quotes quote_book) /\ q_user q = 1%nat /\
      (forall st, Some "sent"%string = Some st -> st <> ""%string ->
                  status_text (q_status q) = st).
Proof.
  assert (H : forall c (l : list quote_row), Permutation (as_stored c l) l)
    by (intros; apply Permutation_refl).
  split; [exact H|].
  apply (list_quotes_scoped as_stored 1 (Some "sent"%string) None None 20 0
           quote_book H).
Defined.

(** X17: the page has [min(limit, total - offset)] quotes (none once
    [offset] is past the end), echoes [limit] and [offset], and [hasMore]
    is true exactly when selected quotes remain after the page. *)
Theorem list_quotes_pagination order_by user status name sort_by limit offset t :
  (forall c l, Permutation (order_by c l) l) ->
  exists page,
    list_quotes order_by user status name sort_by limit offset (fresh t) =
      (Ok page, fresh t) /\
    List.length (qp_quotes page) = Nat.min limit (qp_total page - offset) /\
    qp_limit page = limit /\ qp_offset page = offset /\
    (qp_has_more page = true <->
       (offset + List.length (qp_quotes page) < qp_total page)%nat).
Proof.
  intro Hperm. eexists. split; [apply list_quotes_run|]. simpl.
  rewrite length_firstn, length_skipn, (Permutation_length (Hperm _ _)).
  split; [reflexivity | split; [reflexivity | split; [reflexivity|]]].
  rewrite Nat.ltb_lt. lia.
Qed.

Lemma list_quotes_pagination_witness :
  (forall c (l : list quote_row), Permutation (as_stored c l) l) /\
  exists page,
    list_quotes as_stored 1 None None (Some "amount"%string) 1 0 (fresh quote_book) =
      (Ok page, fresh quote_book) /\
    List.length (qp_quotes page) = Nat.min 1 (qp_total page - 0) /\
    qp_limit page = 1%nat /\ qp_offset page = 0%nat /\
    (qp_has_more page = true <-> (0 + List.length (qp_quotes page) < qp_total page)%nat).
Proof.
  assert (H : forall c (l : list quote_row), Permutation (as_stored c l) l)
    by (intros; apply Permutation_refl).
  split; [exact H|].
  apply (list_quotes_pagination as_stored 1 None None (Some "amount"%string) 1 0
           quote_book H).
Defined.







(** ** Reading a quote *)

(** X19: [get_quote] only reads, and what it returns is a stored quote of
    the calling owner with that id: its status and totals as stored, and
    as line items exactly the stored line items of that quote, with
    [total_items] their number. *)
Theorem get_quote_scoped user qid t v s' :
  get_quote user qid (fresh t) = (Ok v, s') ->
  s' = fresh t /\
  exists q, In q (quotes t) /\ q_id q = qid /\ q_user q = user /\
    qv_id v = qid /\ qv_user v = user /\ qv_number v = q_number q /\
    qv_status v = q_status q /\ qv_total_amount v = q_total_amount q /\
    qv_total_margin v = q_total_margin q /\
    qv_line_items v = lines_of t qid /\
    Forall (fun l => l_quote l = qid) (qv_line_items v) /\
    qv_total_items v = List.length (qv_line_items v).
Proof.
  unfold get_quote, try_catch, bind, query. simpl.
  destruct (find (quote_key qid user) (quotes t)) as [q|] eqn:Hq;
    [|discriminate].
  simpl. intro H. injection H as <- <-. split; [reflexivity|].
  destruct (quote_key_found _ _ _ _ Hq) as [Hid Hu].
  apply find_some in Hq as [Hin _].
  exists q. simpl. repeat (split; [assumption || reflexivity|]).
  split; [|reflexivity].
  apply Forall_forall. intros l Hl. unfold lines_of in Hl.
  apply filter_In in Hl as [_ Hl]. apply Nat.eqb_eq. exact Hl.
Qed.

Lemma get_quote_scoped_witness :
  exists v,
    get_quote 1 2 (fresh quote_book) = (Ok v, fresh quote_book) /\
    (fresh quote_book = fresh quote_book /\
     exists q, In q (quotes quote_book) /\ q_id q = 2%nat /\ q_user q = 1%nat /\
       qv_id v = 2%nat /\ qv_user v = 1%nat /\ qv_number v = q_number q /\
       qv_status v = q_status q /\ qv_total_amount v = q_total_amount q /\
       qv_total_margin v = q_total_margin q /\
       qv_line_items v = lines_of quote_book 2 /\
       Forall (fun l => l_quote l = 2%nat) (qv_line_items v) /\
       qv_total_items v = List.length (qv_line_items v)).
Proof.
  eexists. split; [reflexivity|].
  apply (get_quote_scoped 1 2 quote_book). reflexivity.
Defined.
